(** * InterviewHelper: the session core of [snapshot-panel.tsx]

    A shallow embedding of the orchestration logic of the main session view
    ([InterviewHelper] in [src/frontend/components/snapshot-panel.tsx]):
    the input sanitizer, the three bounded history buffers, the evaluation
    request coordinator ([requestFeedback]), the transcription channel
    ([connectWebSocket] and its handlers) and the session reset
    ([handleReset]), followed by the properties established about them. *)

From Stdlib Require Import Ascii String.
From Stdlib Require Import List Bool Arith ZArith NArith QArith Lia.
Import ListNotations.

Set Implicit Arguments.
Set Warnings "-register-all".
Close Scope Q_scope.

(* ================================================================== *)
(** * JavaScript values as the component sees them *)
(* ================================================================== *)

Module Js.

(** A JavaScript string is a sequence of UTF-16 code units. *)
Definition cu := N.
Definition jsstring := list cu.

(** Source literals are written as Rocq strings and read unit by unit. *)
Fixpoint str (s : string) : jsstring :=
  match s with
  | EmptyString => []
  | String a s' => N_of_ascii a :: str s'
  end.

(** The same, with every apostrophe read as a double quote (code unit 34),
    for writing JSON text. *)
Definition dq (s : string) : jsstring :=
  map (fun c => if N.eqb c 39 then 34%N else c) (str s).

Definition in_range (lo hi c : N) : bool := (N.leb lo c && N.leb c hi)%bool.

(** ECMAScript WhiteSpace and LineTerminator: what [String.prototype.trim]
    strips and what [\s] matches. *)
Definition is_space (c : cu) : bool :=
  (in_range 9 13 c || N.eqb c 32 || N.eqb c 160 || N.eqb c 5760
   || in_range 8192 8202 c || N.eqb c 8232 || N.eqb c 8233
   || N.eqb c 8239 || N.eqb c 8287 || N.eqb c 12288 || N.eqb c 65279)%bool.

(** [\w] without the [u] flag: [A-Za-z0-9_]. *)
Definition is_word (c : cu) : bool :=
  (in_range 48 57 c || in_range 65 90 c || N.eqb c 95 || in_range 97 122 c)%bool.

(** Canonicalize of the [i] flag without [u], as far as the patterns of this
    program can tell: they hold ASCII only, and a code unit of 128 or more
    never canonicalizes to one below 128. *)
Definition canon (c : cu) : cu :=
  if in_range 97 122 c then (c - 32)%N else c.

Fixpoint drop_while (p : cu -> bool) (s : jsstring) : jsstring :=
  match s with
  | [] => []
  | c :: s' => if p c then drop_while p s' else s
  end.

(** [String.prototype.trim]. *)
Definition trim (s : jsstring) : jsstring :=
  rev (drop_while is_space (rev (drop_while is_space s))).

(** [s.length]. *)
Definition len (s : jsstring) : Z := Z.of_nat (length s).

(** [s.substring(0, n)]. *)
Definition substring0 (n : Z) (s : jsstring) : jsstring := firstn (Z.to_nat n) s.

(** [parts.join(sep)]. *)
Fixpoint join (sep : jsstring) (parts : list jsstring) : jsstring :=
  match parts with
  | [] => []
  | [p] => p
  | p :: ps => p ++ sep ++ join sep ps
  end.

Definition jsstring_eqb (a b : jsstring) : bool :=
  if list_eq_dec N.eq_dec a b then true else false.

(** A JavaScript number. Every finite double is a rational, and the only
    operations this program applies to numbers (comparison, [Math.min],
    [Math.max], the truth test) are exact on doubles, so a finite number is
    kept as its rational value; the two zeros are one value here, which no
    operation below tells apart. *)
Inductive number : Type :=
| NaN
| Inf (negative : bool)
| Fin (q : Q).

Definition num_leb (a b : number) : bool :=
  match a, b with
  | NaN, _ | _, NaN => false
  | Inf true, _ => true
  | _, Inf false => true
  | Inf false, _ => false
  | _, Inf true => false
  | Fin p, Fin q => Qle_bool p q
  end.

(** [Math.min(a, b)] and [Math.max(a, b)]. *)
Definition Math_min (a b : number) : number :=
  match a, b with
  | NaN, _ | _, NaN => NaN
  | _, _ => if num_leb a b then a else b
  end.

Definition Math_max (a b : number) : number :=
  match a, b with
  | NaN, _ | _, NaN => NaN
  | _, _ => if num_leb a b then b else a
  end.

Definition is_integer (n : number) : bool :=
  match n with
  | Fin q => Z.eqb (Qnum q mod Zpos (Qden q)) 0
  | _ => false
  end.

(** What [JSON.parse] and [response.json()] produce, and [undefined] for a
    property that is not there. An object is the list of its own
    properties. *)
Inductive value : Type :=
| VUndefined
| VNull
| VBool (b : bool)
| VNum (n : number)
| VStr (s : jsstring)
| VArr (items : list value)
| VObj (fields : list (jsstring * value)).

(** ToBoolean. *)
Definition truthy (v : value) : bool :=
  match v with
  | VUndefined | VNull => false
  | VBool b => b
  | VNum NaN => false
  | VNum (Inf _) => true
  | VNum (Fin q) => negb (Qeq_bool q 0)
  | VStr s => match s with [] => false | _ => true end
  | VArr _ | VObj _ => true
  end.

(** [a || b]. *)
Definition or_else (a b : value) : value := if truthy a then a else b.

Fixpoint lookup (key : jsstring) (fields : list (jsstring * value)) : value :=
  match fields with
  | [] => VUndefined
  | (k, v) :: rest => if jsstring_eqb k key then v else lookup key rest
  end.

(** [v.key] for the property names this program reads ([text], [score],
    [type], ...), none of which a prototype defines: a TypeError ([None]) on
    [null] and [undefined], the own property of an object, [undefined]
    elsewhere. *)
Definition prop (v : value) (key : string) : option value :=
  match v with
  | VUndefined | VNull => None
  | VObj fields => Some (lookup (str key) fields)
  | _ => Some VUndefined
  end.

(** [v === w] against a string or a boolean constant. *)
Definition is_string (v : value) (s : string) : bool :=
  match v with VStr t => jsstring_eqb t (str s) | _ => false end.

Definition is_false (v : value) : bool :=
  match v with VBool false => true | _ => false end.

End Js.

(* ================================================================== *)
(** * A backtracking matcher for the regular expressions of the source *)
(* ================================================================== *)

Module Regex.
Import Js.

(** The constructs the three patterns of [sanitizeInput] are written with;
    every pattern carries the flags [gi]. *)
Inductive regex : Type :=
| Eps                          (* the empty pattern *)
| Chr (c : cu)                 (* a pattern character, compared under [i] *)
| NotChr (c : cu)              (* [[^c]] *)
| Word                         (* [\w] *)
| Space                        (* [\s] *)
| WordB                        (* [\b] *)
| Cat (r1 r2 : regex)          (* r1 r2 *)
| Star (r : regex)             (* r*, greedy *)
| NotAhead (r : regex).        (* (?!r) *)

Definition Plus (r : regex) : regex := Cat r (Star r).

Fixpoint lit_units (s : jsstring) : regex :=
  match s with
  | [] => Eps
  | c :: s' => Cat (Chr c) (lit_units s')
  end.
Definition lit (s : string) : regex := lit_units (str s).

(** A position in the subject: the code unit just before it (none at the
    start) and the units from it on. *)
Definition pos : Type := option cu * jsstring.

Definition word_opt (o : option cu) : bool :=
  match o with Some c => is_word c | None => false end.

Definition one (p : cu -> bool) (k : pos -> option pos) (x : pos) : option pos :=
  match snd x with
  | c :: s' => if p c then k (Some c, s') else None
  | [] => None
  end.

(** [bt r k x]: match [r] at [x] and hand the position reached to the
    continuation [k]; where [k] fails the matcher backtracks into [r], in
    the order of the ECMAScript matcher (a greedy star tries one more
    iteration before it tries to stop, and an iteration that consumed
    nothing is refused). The result is the position where the whole match
    ends. *)
Fixpoint bt (r : regex) (k : pos -> option pos) (x : pos) {struct r} : option pos :=
  match r with
  | Eps => k x
  | Chr c => one (fun d => N.eqb (canon d) (canon c)) k x
  | NotChr c => one (fun d => negb (N.eqb (canon d) (canon c))) k x
  | Word => one is_word k x
  | Space => one is_space k x
  | WordB =>
      if xorb (word_opt (fst x)) (word_opt (hd_error (snd x))) then k x else None
  | Cat r1 r2 => bt r1 (bt r2 k) x
  | Star r1 =>
      (fix iter (fuel : nat) (y : pos) {struct fuel} : option pos :=
         match fuel with
         | O => k y
         | S fuel' =>
             match bt r1 (fun z =>
                            if Nat.ltb (length (snd z)) (length (snd y))
                            then iter fuel' z else None) y with
             | Some e => Some e
             | None => k y
             end
         end) (length (snd x)) x
  | NotAhead r1 =>
      match bt r1 (fun z => Some z) x with
      | Some _ => None
      | None => k x
      end
  end.

(** The match of [r] that starts exactly at [x], if there is one: the
    number of code units it covers. *)
Definition match_at (r : regex) (x : pos) : option nat :=
  match bt r (fun z => Some z) x with
  | Some e => Some (length (snd x) - length (snd e))
  | None => None
  end.

(** [s.replace(r, empty)] for a global [r] and the empty string: the subject is scanned from left
    to right; at each index the pattern is tried; a match is dropped and
    the scan goes on after it, without looking again at what the removal
    has joined. [skip] counts the units of the current match still to drop;
    [prev] is the unit before the current index in the subject. An empty
    match removes nothing and the scan moves one unit on. *)
Fixpoint remove_from (r : regex) (skip : nat) (prev : option cu) (s : jsstring)
  : jsstring :=
  match s with
  | [] => []
  | c :: s' =>
      match skip with
      | S n => remove_from r n (Some c) s'
      | O =>
          match match_at r (prev, s) with
          | Some (S n) => remove_from r n (Some c) s'
          | _ => c :: remove_from r 0 (Some c) s'
          end
      end
  end.

Definition remove_all (r : regex) (s : jsstring) : jsstring :=
  remove_from r 0 None s.

(** Whether [r] has a non-empty match somewhere in [s] from [prev] on. *)
Fixpoint occurs_from (r : regex) (prev : option cu) (s : jsstring) : bool :=
  match s with
  | [] => false
  | c :: s' =>
      match match_at r (prev, s) with
      | Some (S _) => true
      | _ => occurs_from r (Some c) s'
      end
  end.

Definition occurs (r : regex) (s : jsstring) : bool := occurs_from r None s.

End Regex.

(* ================================================================== *)
(** * The sanitizer *)
(* ================================================================== *)

Module Sanitizer.
Import Js Regex.

(** The first pattern of the source, flags [gi], written here with blanks
    between its parts:
    [<script  \b  [^<]*  (?: (?!<\/script>)  <  [^<]* )*  <\/script>] *)
Definition script_block : regex :=
  Cat (lit "<script")
 (Cat WordB
 (Cat (Star (NotChr 60%N))
 (Cat (Star (Cat (NotAhead (lit "</script>"))
            (Cat (Chr 60%N) (Star (NotChr 60%N)))))
      (lit "</script>")))).

(** The second pattern: [javascript:], flags [gi]. *)
Definition javascript_scheme : regex := lit "javascript:".

(** The third pattern, flags [gi]: [on  \w+  \s*  =] *)
Definition event_handler : regex :=
  Cat (lit "on") (Cat (Plus Word) (Cat (Star Space) (Chr 61%N))).

(** [sanitizeInput]. *)
Definition sanitizeInput (input : jsstring) : jsstring :=
  trim (remove_all event_handler
         (remove_all javascript_scheme
           (remove_all script_block input))).

(** No pattern of the sanitizer has a match in [s]. *)
Definition clean (s : jsstring) : bool :=
  (negb (occurs script_block s)
   && negb (occurs javascript_scheme s)
   && negb (occurs event_handler s))%bool.

End Sanitizer.

Import Js Regex Sanitizer.


(* ================================================================== *)
(** * The three bounded history buffers *)
(* ================================================================== *)

Module Buffers.

Section Slices.
Variable A : Type.

(** [prev.slice(-n)]: the last [n] entries, all of them when there are
    fewer. *)
Definition slice_last (n : nat) (prev : list A) : list A :=
  skipn (length prev - n) prev.

(** [prev.slice(0, n)]. *)
Definition slice_first (n : nat) (prev : list A) : list A := firstn n prev.

(** [setTranscription((prev) => [...prev.slice(-49), segment])] *)
Definition push_transcript (prev : list A) (segment : A) : list A :=
  slice_last 49 prev ++ [segment].

(** [setSnapshots((prev) => [snapshot, ...prev.slice(0, 9)])] *)
Definition push_snapshot (prev : list A) (snapshot : A) : list A :=
  snapshot :: slice_first 9 prev.

(** [setFeedback((prev) => [newFeedback, ...prev.slice(0, 4)])] *)
Definition push_feedback (prev : list A) (newFeedback : A) : list A :=
  newFeedback :: slice_first 4 prev.
End Slices.

End Buffers.

(* ================================================================== *)
(** * The state of the component *)
(* ================================================================== *)

Module Component.
Import Js.

(** [interface AIFeedback]; the id is [feedback_] followed by the time. *)
Record AIFeedback : Type := mkFeedback {
  fb_id : Z;
  fb_timestamp : Z;
  score : number;
  strengths : list jsstring;
  improvements : list jsstring;
  optimizations : list jsstring;
  codeAnalysis : jsstring;
  speechAnalysis : jsstring
}.

(** [interface Snapshot]; the id is [snapshot_] followed by the time. *)
Record Snapshot : Type := mkSnapshot {
  snap_id : Z;
  snap_code : jsstring;
  snap_timestamp : Z;
  snap_language : jsstring
}.

(** [interface TranscriptionSegment]; the id is [trans_], the time and a
    random suffix; the confidence is always [1.0]. *)
Record TranscriptionSegment : Type := mkSegment {
  seg_id : Z * jsstring;
  text : jsstring;
  seg_timestamp : Z
}.

(** The fields of [LeetCodeProblem] the session core reads. *)
Record LeetCodeProblem : Type := mkProblem {
  title : jsstring;
  difficulty : jsstring;
  category : jsstring
}.

Inductive QuestionType : Type := leetcode | custom.

Inductive readyState : Type := CONNECTING | OPEN | CLOSING | CLOSED.

(** A [WebSocket] object: which one it is, and its [readyState]. *)
Record socket : Type := mkSocket { sock_id : nat; ready : readyState }.

(** The [useState] cells of [InterviewHelper] that the session core reads
    or writes, followed by its [useRef] cells. A timer ref holds the id of
    the timer it was last given. *)
Record state : Type := mkState {
  code : jsstring;
  language : jsstring;
  isConnected : bool;
  isPaused : bool;
  isTranscribing : bool;
  snapshots : list Snapshot;
  transcription : list TranscriptionSegment;
  feedback : list AIFeedback;
  isEvaluating : bool;
  apiServerConnected : bool;
  questionType : QuestionType;
  selectedProblem : option LeetCodeProblem;
  customQuestion : jsstring;
  searchTerm : jsstring;
  sessionStarted : bool;
  wsRef : option socket;
  connectionRetryRef : option nat;
  lastApiCall : Z
}.

(** The state of the first render. *)
Definition initial : state :=
  mkState [] (str "javascript") false false false [] [] [] false false
          leetcode None [] [] false None None 0.

Definition setCode v (s : state) : state :=
  mkState v (language s) (isConnected s) (isPaused s) (isTranscribing s)
    (snapshots s) (transcription s) (feedback s) (isEvaluating s)
    (apiServerConnected s) (questionType s) (selectedProblem s)
    (customQuestion s) (searchTerm s) (sessionStarted s) (wsRef s)
    (connectionRetryRef s) (lastApiCall s).

Definition setIsConnected v (s : state) : state :=
  mkState (code s) (language s) v (isPaused s) (isTranscribing s)
    (snapshots s) (transcription s) (feedback s) (isEvaluating s)
    (apiServerConnected s) (questionType s) (selectedProblem s)
    (customQuestion s) (searchTerm s) (sessionStarted s) (wsRef s)
    (connectionRetryRef s) (lastApiCall s).

Definition setIsTranscribing v (s : state) : state :=
  mkState (code s) (language s) (isConnected s) (isPaused s) v
    (snapshots s) (transcription s) (feedback s) (isEvaluating s)
    (apiServerConnected s) (questionType s) (selectedProblem s)
    (customQuestion s) (searchTerm s) (sessionStarted s) (wsRef s)
    (connectionRetryRef s) (lastApiCall s).

(** The three buffer setters take the updater function, as the source
    calls them. *)
Definition setSnapshots (f : list Snapshot -> list Snapshot) (s : state) : state :=
  mkState (code s) (language s) (isConnected s) (isPaused s) (isTranscribing s)
    (f (snapshots s)) (transcription s) (feedback s) (isEvaluating s)
    (apiServerConnected s) (questionType s) (selectedProblem s)
    (customQuestion s) (searchTerm s) (sessionStarted s) (wsRef s)
    (connectionRetryRef s) (lastApiCall s).

Definition setTranscription
    (f : list TranscriptionSegment -> list TranscriptionSegment) (s : state) : state :=
  mkState (code s) (language s) (isConnected s) (isPaused s) (isTranscribing s)
    (snapshots s) (f (transcription s)) (feedback s) (isEvaluating s)
    (apiServerConnected s) (questionType s) (selectedProblem s)
    (customQuestion s) (searchTerm s) (sessionStarted s) (wsRef s)
    (connectionRetryRef s) (lastApiCall s).

Definition setFeedback (f : list AIFeedback -> list AIFeedback) (s : state) : state :=
  mkState (code s) (language s) (isConnected s) (isPaused s) (isTranscribing s)
    (snapshots s) (transcription s) (f (feedback s)) (isEvaluating s)
    (apiServerConnected s) (questionType s) (selectedProblem s)
    (customQuestion s) (searchTerm s) (sessionStarted s) (wsRef s)
    (connectionRetryRef s) (lastApiCall s).

Definition setIsEvaluating v (s : state) : state :=
  mkState (code s) (language s) (isConnected s) (isPaused s) (isTranscribing s)
    (snapshots s) (transcription s) (feedback s) v
    (apiServerConnected s) (questionType s) (selectedProblem s)
    (customQuestion s) (searchTerm s) (sessionStarted s) (wsRef s)
    (connectionRetryRef s) (lastApiCall s).

Definition setApiServerConnected v (s : state) : state :=
  mkState (code s) (language s) (isConnected s) (isPaused s) (isTranscribing s)
    (snapshots s) (transcription s) (feedback s) (isEvaluating s)
    v (questionType s) (selectedProblem s)
    (customQuestion s) (searchTerm s) (sessionStarted s) (wsRef s)
    (connectionRetryRef s) (lastApiCall s).

Definition setSelectedProblem v (s : state) : state :=
  mkState (code s) (language s) (isConnected s) (isPaused s) (isTranscribing s)
    (snapshots s) (transcription s) (feedback s) (isEvaluating s)
    (apiServerConnected s) (questionType s) v
    (customQuestion s) (searchTerm s) (sessionStarted s) (wsRef s)
    (connectionRetryRef s) (lastApiCall s).

Definition setCustomQuestion v (s : state) : state :=
  mkState (code s) (language s) (isConnected s) (isPaused s) (isTranscribing s)
    (snapshots s) (transcription s) (feedback s) (isEvaluating s)
    (apiServerConnected s) (questionType s) (selectedProblem s)
    v (searchTerm s) (sessionStarted s) (wsRef s)
    (connectionRetryRef s) (lastApiCall s).

Definition setSearchTerm v (s : state) : state :=
  mkState (code s) (language s) (isConnected s) (isPaused s) (isTranscribing s)
    (snapshots s) (transcription s) (feedback s) (isEvaluating s)
    (apiServerConnected s) (questionType s) (selectedProblem s)
    (customQuestion s) v (sessionStarted s) (wsRef s)
    (connectionRetryRef s) (lastApiCall s).

Definition setSessionStarted v (s : state) : state :=
  mkState (code s) (language s) (isConnected s) (isPaused s) (isTranscribing s)
    (snapshots s) (transcription s) (feedback s) (isEvaluating s)
    (apiServerConnected s) (questionType s) (selectedProblem s)
    (customQuestion s) (searchTerm s) v (wsRef s)
    (connectionRetryRef s) (lastApiCall s).

(** Assignments to [wsRef.current], [connectionRetryRef.current] and
    [lastApiCall.current]. *)
Definition set_wsRef v (s : state) : state :=
  mkState (code s) (language s) (isConnected s) (isPaused s) (isTranscribing s)
    (snapshots s) (transcription s) (feedback s) (isEvaluating s)
    (apiServerConnected s) (questionType s) (selectedProblem s)
    (customQuestion s) (searchTerm s) (sessionStarted s) v
    (connectionRetryRef s) (lastApiCall s).

Definition set_connectionRetryRef v (s : state) : state :=
  mkState (code s) (language s) (isConnected s) (isPaused s) (isTranscribing s)
    (snapshots s) (transcription s) (feedback s) (isEvaluating s)
    (apiServerConnected s) (questionType s) (selectedProblem s)
    (customQuestion s) (searchTerm s) (sessionStarted s) (wsRef s)
    v (lastApiCall s).

Definition set_lastApiCall v (s : state) : state :=
  mkState (code s) (language s) (isConnected s) (isPaused s) (isTranscribing s)
    (snapshots s) (transcription s) (feedback s) (isEvaluating s)
    (apiServerConnected s) (questionType s) (selectedProblem s)
    (customQuestion s) (searchTerm s) (sessionStarted s) (wsRef s)
    (connectionRetryRef s) v.

End Component.

(* ================================================================== *)
(** * The evaluation request coordinator: [requestFeedback] *)
(* ================================================================== *)

Module Coordinator.
Import Js Sanitizer Buffers Component.

(** [const API_RATE_LIMIT = 2000] *)
Definition API_RATE_LIMIT : Z := 2000.

(** The body of the POST to [/evaluate]. *)
Record evaluationData : Type := mkEvaluationData {
  ev_code : jsstring;
  ev_transcript : jsstring;
  ev_language : jsstring;
  ev_question : jsstring;
  ev_problem_details : option LeetCodeProblem;
  ev_timestamp : Z
}.

(** What a run of [requestFeedback] does that the rest of the program can
    see besides the state it leaves: the calls of [setIsEvaluating] and the
    [fetch] of [/evaluate], in order. *)
Inductive action : Type :=
| Evaluating (b : bool)
| Dispatch (body : evaluationData).

Definition is_dispatch (a : action) : bool :=
  match a with Dispatch _ => true | Evaluating _ => false end.

(** The number of network dispatches in a run. *)
Definition dispatches (l : list action) : nat := length (filter is_dispatch l).

Definition sets_evaluating_true (a : action) : bool :=
  match a with Evaluating true => true | _ => false end.

(** [getCurrentQuestion] *)
Definition getCurrentQuestion (s : state) : jsstring :=
  match questionType s, selectedProblem s with
  | leetcode, Some p =>
      str "LeetCode Problem: " ++ title p ++ str " (" ++ difficulty p ++ str ")"
  | custom, _ =>
      match trim (customQuestion s) with
      | [] => str "No question selected"
      | q => str "Custom Question: " ++ substring0 100 q ++ str "..."
      end
  | leetcode, None => str "No question selected"
  end.

(** What the part of [requestFeedback] after [await fetch] still holds
    from the part before it. *)
Record inflight : Type := mkInflight {
  sanitizedCode : jsstring;
  submitted_language : jsstring
}.

(** How a run that gets past [fetch] is paused there. *)
Definition started : Type := state * list action * option inflight.

(** [requestFeedback], from its first line to the [await fetch]: [now] is
    what the first [Date.now()] returns, [stamp] the one of the payload.
    The caller is given [None] where the run has ended without a fetch. *)
Definition requestFeedback (now stamp : Z) (s : state) : started :=
  if (now - lastApiCall s <? API_RATE_LIMIT)%Z then (s, [], None)
  else
    let s := set_lastApiCall now s in
    if (match trim (code s) with [] => true | _ => false end
        || (10000 <? len (code s))%Z)%bool
    then (s, [], None)
    else
      let s := setIsEvaluating true s in
      (* try *)
      let allTranscription :=
        join (str " ") (map (fun t => sanitizeInput (text t)) (transcription s)) in
      let sanitizedCode := sanitizeInput (trim (code s)) in
      let questionContext := getCurrentQuestion s in
      if (len sanitizedCode =? 0)%Z
      then (* return; finally *)
        (setIsEvaluating false s, [Evaluating true; Evaluating false], None)
      else
        let evaluationData :=
          mkEvaluationData
            (substring0 5000 sanitizedCode)
            (substring0 2000 allTranscription)
            (sanitizeInput (language s))
            questionContext
            (match questionType s, selectedProblem s with
             | leetcode, Some p => Some p
             | _, _ => None
             end)
            stamp in
        (s, [Evaluating true; Dispatch evaluationData],
         Some (mkInflight sanitizedCode (language s))).

(** The two callers: the button ([onClick={requestFeedback}]) and the
    60-second interval ([requestFeedback()]) run the same function. *)
Inductive caller : Type := ManualButton | Scheduler.

Definition invoke (who : caller) (now stamp : Z) (s : state) : started :=
  match who with
  | ManualButton => requestFeedback now stamp s
  | Scheduler => requestFeedback now stamp s
  end.

(** How the awaited [fetch] and [response.json()] end. *)
Inductive fetch_outcome : Type :=
| NetworkError                               (* fetch rejects *)
| Aborted                                    (* the 15 s timer aborts it *)
| Responded (ok : bool) (body : option value).
                                  (* [body] is [None] where [json()] rejects *)

(** The four [Date.now()] of the success path. *)
Record stamps : Type := mkStamps {
  at_feedback_id : Z;
  at_feedback : Z;
  at_snapshot_id : Z;
  at_snapshot : Z
}.

Definition bind {A B} (o : option A) (k : A -> option B) : option B :=
  match o with Some a => k a | None => None end.

Fixpoint traverse {A B} (f : A -> option B) (l : list A) : option (list B) :=
  match l with
  | [] => Some []
  | a :: l' => bind (f a) (fun b => bind (traverse f l') (fun bs => Some (b :: bs)))
  end.

(** [n || 0] *)
Definition or_zero (n : number) : number :=
  if truthy (VNum n) then n else Fin 0.

(** [Math.max(0, Math.min(10, n || 0))] *)
Definition clamped (n : number) : number :=
  Math_max (Fin 0) (Math_min (Fin 10) (or_zero n)).

Section Builtins.
(** StringToNumber of the language, and the string a non-primitive value
    converts to ([None] where the conversion throws). *)
Variable StringToNumber : jsstring -> number.
Variable ToPrimitive : value -> option jsstring.

(** [Number(v)]; [None] is a thrown TypeError. *)
Definition Number (v : value) : option number :=
  match v with
  | VUndefined => Some NaN
  | VNull => Some (Fin 0)
  | VBool true => Some (Fin 1)
  | VBool false => Some (Fin 0)
  | VNum n => Some n
  | VStr s => Some (StringToNumber s)
  | VArr _ | VObj _ => option_map StringToNumber (ToPrimitive v)
  end.

(** [Math.max(0, Math.min(10, Number(v) || 0))] *)
Definition clamp_score (v : value) : option number :=
  bind (Number v) (fun n => Some (clamped n)).

(** [Array.isArray(v) ? v.slice(0, 5).map((s) =>
    sanitizeInput(s.substring(0, 200))) : []]; an item that is not a
    string has no [substring] and the call throws. *)
Definition string_list (v : value) : option (list jsstring) :=
  match v with
  | VArr items =>
      traverse (fun s => match s with
                         | VStr t => Some (sanitizeInput (substring0 200 t))
                         | _ => None
                         end) (firstn 5 items)
  | _ => Some []
  end.

(** [sanitizeInput((v || fallback).substring(0, 500))] *)
Definition analysis (v : value) (fallback : string) : option jsstring :=
  match or_else v (VStr (str fallback)) with
  | VStr t => Some (sanitizeInput (substring0 500 t))
  | _ => None
  end.

(** The object literal [newFeedback]; [None] where building it throws. *)
Definition newFeedback (result : value) (t : stamps) : option AIFeedback :=
  bind (prop result "score") (fun v_score =>
  bind (clamp_score v_score) (fun sc =>
  bind (prop result "strengths") (fun v1 =>
  bind (string_list v1) (fun l1 =>
  bind (prop result "improvements") (fun v2 =>
  bind (string_list v2) (fun l2 =>
  bind (prop result "optimizations") (fun v3 =>
  bind (string_list v3) (fun l3 =>
  bind (prop result "code_analysis") (fun v4 =>
  bind (analysis v4 "Code analysis completed") (fun a1 =>
  bind (prop result "speech_analysis") (fun v5 =>
  bind (analysis v5 "Speech analysis completed") (fun a2 =>
  Some (mkFeedback (at_feedback_id t) (at_feedback t) sc l1 l2 l3 a1 a2))))))))))))).

(** The [try] block from [await fetch] on: [None] where it throws. *)
Definition try_after_fetch (o : fetch_outcome) (t : stamps) (fl : inflight)
    (s : state) : option state :=
  match o with
  | NetworkError | Aborted => None
  | Responded false _ => None          (* throw new Error(`HTTP ...`) *)
  | Responded true None => None
  | Responded true (Some result) =>
      bind (newFeedback result t) (fun fb =>
      let s := setFeedback (fun prev => push_feedback prev fb) s in
      let snapshot :=
        mkSnapshot (at_snapshot_id t) (sanitizedCode fl) (at_snapshot t)
                   (sanitizeInput (submitted_language fl)) in
      let s := setSnapshots (fun prev => push_snapshot prev snapshot) s in
      Some (setApiServerConnected true s))
  end.

(** [requestFeedback] from the [await fetch] to its end, on the state the
    component is in when the fetch settles. *)
Definition requestFeedback_resume (o : fetch_outcome) (t : stamps)
    (fl : inflight) (s : state) : state * list action :=
  let s :=
    match try_after_fetch o t fl s with
    | Some s' => s'
    | None => (* catch *) setApiServerConnected false s
    end in
  (* finally *)
  (setIsEvaluating false s, [Evaluating false]).

(** A whole run with nothing else in between: the state it ends in, what
    it did, and whether it built a feedback record. *)
Definition run (now stamp : Z) (o : fetch_outcome) (t : stamps) (s : state)
  : state * list action :=
  match requestFeedback now stamp s with
  | (s1, acts, Some fl) =>
      let '(s2, acts') := requestFeedback_resume o t fl s1 in
      (s2, acts ++ acts')
  | (s1, acts, None) => (s1, acts)
  end.
End Builtins.

End Coordinator.

(* ================================================================== *)
(** * The transcription channel, its timers and the session controls *)
(* ================================================================== *)

Module Channel.
Import Js Sanitizer Buffers Component.

(** The callbacks this core hands to [setTimeout]. [connectWebSocket] is
    made anew by [useCallback] whenever the language changes, and the one a
    retry timer calls is the one that set the timer: the callback holds the
    language that [connectWebSocket] was made with. *)
Inductive callback : Type :=
| RetryConnect (lang : jsstring)
                    (* () => connectWebSocket(), after 5000 ms *)
| SpeakingOff.      (* () => setIsTranscribing(false), after 1000 ms *)

(** What the event loop delivers: a timer that is due, or an event of the
    socket with the given id. A message comes with the text of
    [event.data.toString()] and with the suffix [Math.random()] will give
    to the id of its segment. *)
Inductive event : Type :=
| Timer (id : nat) (cb : callback)
| SockOpen (id : nat)
| SockError (id : nat)
| SockClose (id : nat)
| SockMessage (id : nat) (data : jsstring) (rnd : jsstring).

(** What the component sends on the channel. *)
Inductive outbound : Type :=
| session_start (timestamp : Z) (lang : jsstring)
| pause_session (timestamp : Z)
| resume_session (timestamp : Z).

(** The component in its event loop: the clock, the component state, the
    events to come in the order of their times, the times at which
    [new WebSocket] was called (latest first), the ids the next socket and
    the next timer will get, what was sent, whether a 60-second feedback
    interval is running, and for every socket that was made the language of
    the [connectWebSocket] that made it, which is the language its handlers
    see. *)
Record world : Type := mkWorld {
  now : Z;
  comp : state;
  agenda : list (Z * event);
  attempts : list Z;
  next_socket : nat;
  next_timer : nat;
  sent : list outbound;
  feedbackInterval : bool;
  closures : list (nat * jsstring)
}.

(** The language the handlers of socket [id] were made with. (Only sockets
    that were made deliver events.) *)
Fixpoint captured_in (id : nat) (table : list (nat * jsstring)) : jsstring :=
  match table with
  | [] => []
  | (id', lang) :: rest => if Nat.eqb id id' then lang else captured_in id rest
  end.

Definition captured (id : nat) (w : world) : jsstring :=
  captured_in id (closures w).

Definition with_comp (f : state -> state) (w : world) : world :=
  mkWorld (now w) (f (comp w)) (agenda w) (attempts w) (next_socket w)
          (next_timer w) (sent w) (feedbackInterval w) (closures w).

Definition with_agenda (f : list (Z * event) -> list (Z * event)) (w : world) : world :=
  mkWorld (now w) (comp w) (f (agenda w)) (attempts w) (next_socket w)
          (next_timer w) (sent w) (feedbackInterval w) (closures w).

Definition with_feedbackInterval (b : bool) (w : world) : world :=
  mkWorld (now w) (comp w) (agenda w) (attempts w) (next_socket w)
          (next_timer w) (sent w) b (closures w).

(** Events are kept by time; one that is put in comes after those of the
    same time. *)
Fixpoint schedule (t : Z) (e : event) (ag : list (Z * event)) : list (Z * event) :=
  match ag with
  | [] => [(t, e)]
  | (t', e') :: rest =>
      if (t <? t')%Z then (t, e) :: ag else (t', e') :: schedule t e rest
  end.

(** [setTimeout(cb, delay)]: the world with the timer in it, and its id. *)
Definition setTimeout (cb : callback) (delay : Z) (w : world) : world * nat :=
  let id := next_timer w in
  (mkWorld (now w) (comp w) (schedule (now w + delay) (Timer id cb) (agenda w))
           (attempts w) (next_socket w) (S id) (sent w) (feedbackInterval w)
           (closures w),
   id).

Definition is_timer (id : nat) (e : Z * event) : bool :=
  match snd e with Timer id' _ => Nat.eqb id id' | _ => false end.

(** [clearTimeout(id)] *)
Definition clearTimeout (id : nat) (w : world) : world :=
  with_agenda (filter (fun e => negb (is_timer id e))) w.

(** The transport under the component: whether [new WebSocket(WS_URL)]
    returns at all (it throws on a URL it cannot take), and the events the
    socket created at a given time will deliver. *)
Record network : Type := mkNetwork {
  url_ok : bool;
  fate : Z -> nat -> list (Z * event)
}.

Definition is_open (o : option socket) : bool :=
  match o with
  | Some (mkSocket _ OPEN) => true
  | _ => false
  end.

(** The browser sets the [readyState] of a socket before it runs the
    handler; the component can see it where [wsRef.current] is that
    socket. *)
Definition mark (id : nat) (r : readyState) (s : state) : state :=
  match wsRef s with
  | Some (mkSocket id' _) =>
      if Nat.eqb id id' then set_wsRef (Some (mkSocket id r)) s else s
  | None => s
  end.

Section WithEnvironment.
Variable net : network.
(** [JSON.parse]: [None] where it throws. *)
Variable JSON_parse : jsstring -> option value.

(** [connectWebSocket], as made by the render in which the language was
    [lang]: the handlers it attaches to the socket, and the retry it sets,
    are its own. *)
Definition connectWebSocket (lang : jsstring) (w : world) : world :=
  if is_open (wsRef (comp w)) then w
  else
    let w := mkWorld (now w) (comp w) (agenda w) (now w :: attempts w)
                     (next_socket w) (next_timer w) (sent w)
                     (feedbackInterval w) (closures w) in
    if url_ok net then
      let id := next_socket w in
      let w := with_comp (set_wsRef (Some (mkSocket id CONNECTING))) w in
      mkWorld (now w) (comp w)
              (fold_left (fun ag e => schedule (fst e) (snd e) ag)
                         (fate net (now w) id) (agenda w))
              (attempts w) (S id) (next_timer w) (sent w) (feedbackInterval w)
              ((id, lang) :: closures w)
    else
      (* catch *)
      let w := with_comp (setIsConnected false) w in
      let '(w, id) := setTimeout (RetryConnect lang) 5000 w in
      with_comp (set_connectionRetryRef (Some id)) w.

(** The effect that connects: it calls the [connectWebSocket] of the
    current render. *)
Definition mount_connect (w : world) : world :=
  connectWebSocket (language (comp w)) w.

(** [wsRef.current.onopen] of socket [id]: the language in the handshake
    is the one its [connectWebSocket] was made with; the handshake goes out
    on the socket [wsRef] holds. *)
Definition onopen (id : nat) (w : world) : world :=
  let w := with_comp (mark id OPEN) w in
  let w := with_comp (setIsConnected true) w in
  let w := match connectionRetryRef (comp w) with
           | Some t => clearTimeout t w
           | None => w
           end in
  if is_open (wsRef (comp w)) then
    mkWorld (now w) (comp w) (agenda w) (attempts w) (next_socket w)
            (next_timer w)
            (session_start (now w) (sanitizeInput (captured id w)) :: sent w)
            (feedbackInterval w) (closures w)
  else w.

(** [wsRef.current.onclose] of socket [id]: the retry calls the
    [connectWebSocket] that made the socket. *)
Definition onclose (id : nat) (w : world) : world :=
  let w := with_comp (mark id CLOSED) w in
  let w := with_comp (setIsConnected false) w in
  let w := with_comp (setIsTranscribing false) w in
  let '(w, t) := setTimeout (RetryConnect (captured id w)) 5000 w in
  with_comp (set_connectionRetryRef (Some t)) w.

(** [wsRef.current.onerror] *)
Definition onerror (id : nat) (w : world) : world :=
  let w := with_comp (setIsConnected false) w in
  with_comp (setIsTranscribing false) w.

(** [data.text || data.message || data.transcript || data.content || empty];
    [None] where reading a property throws. *)
Definition best_text (data : value) : option value :=
  match prop data "text", prop data "message",
        prop data "transcript", prop data "content" with
  | Some a, Some b, Some c, Some d =>
      Some (or_else a (or_else b (or_else c (or_else d (VStr [])))))
  | _, _, _, _ => None
  end.

(** [sanitizeInput(v)] on a value that came out of [JSON.parse]: only a
    string has [replace]; on anything else the call throws. *)
Definition sanitize_value (v : value) : option jsstring :=
  match v with
  | VStr t => Some (sanitizeInput t)
  | _ => None
  end.

(** How the inner [try] of [onmessage] ends. *)
Inductive parsed : Type :=
| Status (active : bool)       (* setIsTranscribing(active); return *)
| Spoken (t : jsstring).       (* go on with this transcription text *)

Definition inner_try (rawData : jsstring) : parsed :=
  let attempt :=
    match JSON_parse rawData with
    | None => None
    | Some data =>
        match best_text data with
        | None => None
        | Some v =>
            match sanitize_value v with
            | None => None
            | Some transcriptionText =>
                match prop data "type", prop data "active" with
                | Some ty, Some act =>
                    if is_string ty "transcription_status"
                    then Some (Status (negb (is_false act)))
                    else Some (Spoken transcriptionText)
                | _, _ => None
                end
            end
        end
    end in
  match attempt with
  | Some r => r
  | None => (* catch (jsonError) *) Spoken rawData
  end.

(** [wsRef.current.onmessage] *)
Definition onmessage (data rnd : jsstring) (w : world) : world :=
  let rawData := sanitizeInput data in
  match inner_try rawData with
  | Status active => with_comp (setIsTranscribing active) w
  | Spoken transcriptionText =>
      if ((0 <? len transcriptionText)%Z && (len transcriptionText <? 1000)%Z)%bool
      then
        let segment := mkSegment (now w, rnd) transcriptionText (now w) in
        let w := with_comp
                   (setTranscription (fun prev => push_transcript prev segment)) w in
        let w := with_comp (setIsTranscribing true) w in
        fst (setTimeout SpeakingOff 1000 w)
      else w
  end.

(** What the event loop runs for an event. *)
Definition deliver (e : event) (w : world) : world :=
  match e with
  | Timer _ (RetryConnect lang) => connectWebSocket lang w
  | Timer _ SpeakingOff => with_comp (setIsTranscribing false) w
  | SockOpen id => onopen id w
  | SockError id => onerror id w
  | SockClose id => onclose id w
  | SockMessage _ data rnd => onmessage data rnd w
  end.

(** One turn of the event loop: the clock moves to the next event and its
    handler runs. *)
Definition turn (w : world) : option world :=
  match agenda w with
  | [] => None
  | (t, e) :: rest =>
      Some (deliver e (mkWorld t (comp w) rest (attempts w) (next_socket w)
                               (next_timer w) (sent w) (feedbackInterval w)
                               (closures w)))
  end.

(** The event loop up to time [T] (included), for at most [fuel] turns. *)
Fixpoint run_until (T : Z) (fuel : nat) (w : world) : world :=
  match fuel with
  | O => w
  | S fuel' =>
      match agenda w with
      | (t, _) :: _ =>
          if (t <=? T)%Z then
            match turn w with
            | Some w' => run_until T fuel' w'
            | None => w
            end
          else w
      | [] => w
      end
  end.
End WithEnvironment.

(** A server that is down and stays down: every socket fails and closes
    [d] ms after it was created. *)
Definition refused (d : Z) : network :=
  mkNetwork true (fun t id => [((t + d)%Z, SockError id); ((t + d)%Z, SockClose id)]).

(** A server that is up: every socket opens [d] ms after it was
    created. *)
Definition accepting (d : Z) : network :=
  mkNetwork true (fun t id => [((t + d)%Z, SockOpen id)]).

(** The component as it is mounted: nothing has happened yet. *)
Definition mounted : world := mkWorld 0 initial [] [] 0 1 [] false [].


(** The state between two attempts: the retry timer, due at [t] and set
    by the [connectWebSocket] of language [lang], is the one event to come,
    and the socket in [wsRef] is not open. *)
Definition waiting (t : Z) (lang : jsstring) (w : world) : Prop :=
  (exists tid, agenda w = [(t, Timer tid (RetryConnect lang))])
  /\ is_open (wsRef (comp w)) = false.






End Channel.

Module Session.
Import Js Component Channel.

(** The condition of the auto-feedback effect:
    [!isPaused && sessionStarted && transcription.length > 0]. *)
Definition auto_feedback_due (s : state) : bool :=
  (negb (isPaused s) && sessionStarted s && (0 <? length (transcription s)))%bool.

(** The auto-feedback effect, run again: the clean-up of the run before
    clears the interval that was running, and a new 60-second interval is
    started where the condition holds. *)
Definition autoFeedbackEffect (w : world) : world :=
  with_feedbackInterval (auto_feedback_due (comp w)) w.

(** [handleReset] *)
Definition handleReset (s : state) : state :=
  let s := setCode [] s in
  let s := setSnapshots (fun _ => []) s in
  let s := setTranscription (fun _ => []) s in
  let s := setFeedback (fun _ => []) s in
  let s := setSessionStarted false s in
  let s := setSelectedProblem None s in
  let s := setCustomQuestion [] s in
  setSearchTerm [] s.

(** A click on the reset button, and the render it causes:
    [setTranscription([])] gives [transcription] a new array, so
    [requestFeedback] is made anew and the auto-feedback effect, which
    depends on it, runs again. *)
Definition click_reset (w : world) : world :=
  autoFeedbackEffect (with_comp handleReset w).

End Session.

(* ================================================================== *)
(** * The controls of the session view *)
(* ================================================================== *)

Module Controls.
Import Js Regex Sanitizer Component Coordinator Channel Session.

Definition setLanguage v (s : state) : state :=
  mkState (code s) v (isConnected s) (isPaused s) (isTranscribing s)
    (snapshots s) (transcription s) (feedback s) (isEvaluating s)
    (apiServerConnected s) (questionType s) (selectedProblem s)
    (customQuestion s) (searchTerm s) (sessionStarted s) (wsRef s)
    (connectionRetryRef s) (lastApiCall s).

Definition setIsPaused v (s : state) : state :=
  mkState (code s) (language s) (isConnected s) v (isTranscribing s)
    (snapshots s) (transcription s) (feedback s) (isEvaluating s)
    (apiServerConnected s) (questionType s) (selectedProblem s)
    (customQuestion s) (searchTerm s) (sessionStarted s) (wsRef s)
    (connectionRetryRef s) (lastApiCall s).

(** [handleCodeChange]; the editor hands over [undefined] ([None]) or the
    text. *)
Definition handleCodeChange (value : option jsstring) (s : state) : state :=
  let sanitizedValue :=
    sanitizeInput (match value with Some v => v | None => [] end) in
  if (len sanitizedValue <=? 10000)%Z then setCode sanitizedValue s else s.

(** [const allowedLanguages] *)
Definition allowedLanguages : list jsstring :=
  [str "javascript"; str "typescript"; str "python"; str "java";
   str "cpp"; str "csharp"; str "go"; str "rust"].

(** [allowedLanguages.includes(l)] *)
Definition includes (l : jsstring) (among : list jsstring) : bool :=
  existsb (jsstring_eqb l) among.

(** [handleLanguageChange] *)
Definition handleLanguageChange (newLanguage : jsstring) (s : state) : state :=
  let sanitizedLanguage := sanitizeInput newLanguage in
  if includes sanitizedLanguage allowedLanguages
  then setLanguage sanitizedLanguage s
  else s.

(** The text of a template literal of the source, written with [~] for its
    line feed and an apostrophe for its double quote. *)
Definition tpl (s : string) : jsstring :=
  map (fun c => if N.eqb c 126 then 10%N else if N.eqb c 39 then 34%N else c)
      (str s).

(** [const templates] of [handleStartSession], with the question context
    [q] that [getCurrentQuestion()] gives put in. *)
Definition templates (q : jsstring) : list (jsstring * jsstring) :=
  [ (str "javascript",
     str "// " ++ q ++ tpl "~// Explain your thought process as you code~~function solution() {~  // Start explaining your approach here~}~");
    (str "python",
     str "# " ++ q ++ tpl "~# Explain your thought process as you code~~def solution():~    # Start explaining your approach here~    pass~");
    (str "java",
     str "// " ++ q ++ tpl "~// Explain your thought process as you code~~public class Solution {~    public void solution() {~        // Start explaining your approach here~    }~}~");
    (str "cpp",
     str "// " ++ q ++ tpl "~// Explain your thought process as you code~~#include <iostream>~using namespace std;~~void solution() {~    // Start explaining your approach here~}~");
    (str "csharp",
     str "// " ++ q ++ tpl "~// Explain your thought process as you code~~using System;~~public class Solution {~    public void SolutionMethod() {~        // Start explaining your approach here~    }~}~");
    (str "go",
     str "// " ++ q ++ tpl "~// Explain your thought process as you code~~package main~~import 'fmt'~~func solution() {~    // Start explaining your approach here~}~");
    (str "rust",
     str "// " ++ q ++ tpl "~// Explain your thought process as you code~~fn solution() {~    // Start explaining your approach here~}~");
    (str "typescript",
     str "// " ++ q ++ tpl "~// Explain your thought process as you code~~function solution(): void {~  // Start explaining your approach here~}~") ].

Fixpoint assoc (key : jsstring) (table : list (jsstring * jsstring)) : option jsstring :=
  match table with
  | [] => None
  | (k, v) :: rest => if jsstring_eqb k key then Some v else assoc key rest
  end.

(** The names that every object literal inherits from [Object.prototype]:
    [templates[name]] is then a function, or for [__proto__] the prototype
    itself, which is truthy and no string. *)
Definition inherited : list jsstring :=
  [str "constructor"; str "hasOwnProperty"; str "isPrototypeOf";
   str "propertyIsEnumerable"; str "toLocaleString"; str "toString";
   str "valueOf"; str "__proto__"; str "__defineGetter__";
   str "__defineSetter__"; str "__lookupGetter__"; str "__lookupSetter__"].

(** What a read of [templates] can give to [setCode]. *)
Inductive template : Type :=
| Text (t : jsstring)        (* one of the eight texts of the table *)
| Member (name : jsstring).  (* the member of [Object.prototype] of that name *)

(** [templates.javascript] *)
Definition default_template (q : jsstring) : jsstring :=
  match assoc (str "javascript") (templates q) with
  | Some t => t
  | None => []
  end.

(** [templates[language] || templates.javascript]: the own property where
    there is one (and it is not the empty text), else the inherited member
    where the name is one of [Object.prototype], else, for [undefined], the
    text for javascript. *)
Definition template_for (lang q : jsstring) : template :=
  match assoc lang (templates q) with
  | Some (c :: t) => Text (c :: t)
  | Some [] => Text (default_template q)
  | None =>
      if includes lang inherited then Member lang
      else Text (default_template q)
  end.

(** The condition of [handleStartSession]:
    [(questionType === "leetcode" && selectedProblem) ||
     (questionType === "custom" && customQuestion.trim())]. *)
Definition question_chosen (s : state) : bool :=
  match questionType s, selectedProblem s with
  | leetcode, Some _ => true
  | leetcode, None => false
  | custom, _ => match trim (customQuestion s) with [] => false | _ => true end
  end.

(** [handleStartSession]. The code of the component is a text wherever
    this model holds it; [None] stands for the one way out of that:
    [setCode] handed a member of [Object.prototype], after which the code
    is no text any more. *)
Definition handleStartSession (s : state) : option state :=
  if question_chosen s then
    let s' := setSessionStarted true s in
    match template_for (language s) (getCurrentQuestion s) with
    | Text t => Some (setCode t s')
    | Member _ => None
    end
  else Some s.

(** [togglePause]: [isPaused] in the message is the value of the render the
    handler was made in. *)
Definition togglePause (w : world) : world :=
  let paused := isPaused (comp w) in
  let w' := with_comp (setIsPaused (negb paused)) w in
  if is_open (wsRef (comp w)) then
    mkWorld (now w') (comp w') (agenda w') (attempts w') (next_socket w')
            (next_timer w')
            ((if paused then resume_session (now w) else pause_session (now w))
               :: sent w')
            (feedbackInterval w') (closures w')
  else w'.

(** A click on the pause button and the render it causes: [isPaused] is a
    dependency of the auto-feedback effect, which runs again. *)
Definition click_pause (w : world) : world :=
  autoFeedbackEffect (togglePause w).

End Controls.

(* ================================================================== *)
(** * Sequences of calls of [requestFeedback] *)
(* ================================================================== *)

Module Calls.
Import Js Component Coordinator.

(** One call: the time it is made at, the time stamp of its payload, and
    what has happened to the component since the call before. *)
Record call : Type := mkCall {
  call_at : Z;
  call_stamp : Z;
  call_before : state -> state
}.

(** The times at which the calls of a sequence start a fetch. *)
Fixpoint dispatch_times (calls : list call) (s : state) : list Z :=
  match calls with
  | [] => []
  | c :: rest =>
      let r := requestFeedback (call_at c) (call_stamp c) (call_before c s) in
      (if (0 <? dispatches (snd (fst r)))%nat then [call_at c] else [])
        ++ dispatch_times rest (fst (fst r))
  end.

(** Each time of the list is at least 2000 ms after the one before it, the
    first one after [last]. *)
Fixpoint spaced_from (last : Z) (times : list Z) : Prop :=
  match times with
  | [] => True
  | t :: rest => (last + 2000 <= t)%Z /\ spaced_from t rest
  end.

End Calls.

(* ================================================================== *)
(** * The snapshot panel: [getCodePreview] *)
(* ================================================================== *)

Module Preview.
Import Js.

(** [s.split(sep)] for a separator of one code unit. *)
Fixpoint split_on (sep : cu) (s : jsstring) : list jsstring :=
  match s with
  | [] => [[]]
  | c :: s' =>
      if N.eqb c sep then [] :: split_on sep s'
      else match split_on sep s' with
           | l :: ls => (c :: l) :: ls
           | [] => [[c]]
           end
  end.

(** [s.startsWith(p)] *)
Fixpoint startsWith (p s : jsstring) : bool :=
  match p, s with
  | [], _ => true
  | a :: p', b :: s' => (N.eqb a b && startsWith p' s')%bool
  | _ :: _, [] => false
  end.

Definition nonempty (s : jsstring) : bool :=
  match s with [] => false | _ => true end.

(** The line [getCodePreview] looks for: the first line that is not blank
    and, trimmed, starts neither with [//] nor with [/*]. *)
Definition firstMeaningfulLine (code : jsstring) : option jsstring :=
  let lines := filter (fun line => nonempty (trim line)) (split_on 10%N code) in
  find (fun line =>
          (negb (startsWith (str "//") (trim line))
           && negb (startsWith (str "/*") (trim line))
           && (0 <? len (trim line))%Z)%bool) lines.

(** [getCodePreview]: the sum is taken before the [||], and [undefined]
    added to a string reads [undefined]. *)
Definition getCodePreview (code : jsstring) : jsstring :=
  let shown :=
    match firstMeaningfulLine code with
    | Some line => substring0 30 (trim line) ++ str "..."
    | None => str "undefined" ++ str "..."
    end in
  if nonempty shown then shown else str "Empty code".

End Preview.

(* ================================================================== *)
(** * Structure of the patterns *)
(* ================================================================== *)

Module Patterns.
Import Js Regex.

(** The loop of a starred pattern, by name. *)
Definition star_iter (r1 : regex) (k : pos -> option pos) : nat -> pos -> option pos :=
  fix iter (fuel : nat) (y : pos) {struct fuel} : option pos :=
    match fuel with
    | O => k y
    | S fuel' =>
        match bt r1 (fun z =>
                       if Nat.ltb (length (snd z)) (length (snd y))
                       then iter fuel' z else None) y with
        | Some e => Some e
        | None => k y
        end
    end.

(** Whether the pattern names the code unit [c] at a place every match has
    to go through. *)
Fixpoint mentions (c : cu) (r : regex) : bool :=
  match r with
  | Chr c' => N.eqb c' c
  | Cat r1 r2 => (mentions c r1 || mentions c r2)%bool
  | _ => false
  end.

(** A code unit that is no letter, so that only itself matches it under
    the [i] flag. *)
Definition caseless (c : cu) : bool :=
  (negb (in_range 65 90 c) && negb (in_range 97 122 c))%bool.

End Patterns.

(* ================================================================== *)
(** * Properties *)
(* ================================================================== *)

Import Js Regex Sanitizer Buffers Component Coordinator Channel Session.

Unset Implicit Arguments.

(** ** The sanitizer *)

Section SanitizerFacts.

Lemma drop_while_idem (p : cu -> bool) (s : jsstring) :
  drop_while p (drop_while p s) = drop_while p s.
Proof.
  induction s as [|c s IH]; simpl; [reflexivity|].
  destruct (p c) eqn:E; [exact IH|].
  simpl. now rewrite E.
Qed.

Lemma drop_while_snoc (p : cu -> bool) (s : jsstring) (c : cu) :
  p c = false -> drop_while p (s ++ [c]) = drop_while p s ++ [c].
Proof.
  intros Hc. induction s as [|a s IH]; simpl.
  - now rewrite Hc.
  - destruct (p a); [exact IH | reflexivity].
Qed.

(** What [trim] returns starts with no blank. *)
Lemma trim_front (s : jsstring) : drop_while is_space (trim s) = trim s.
Proof.
  unfold trim.
  remember (drop_while is_space s) as u eqn:Hu.
  assert (Hhead : match u with [] => True | c :: _ => is_space c = false end).
  { subst u. induction s as [|a s IH]; simpl; [exact I|].
    destruct (is_space a) eqn:E; [exact IH | exact E]. }
  destruct u as [|c u']; [reflexivity|].
  simpl rev. rewrite (drop_while_snoc _ _ _ Hhead).
  rewrite rev_app_distr. simpl. now rewrite Hhead.
Qed.

Lemma trim_idempotent (s : jsstring) : trim (trim s) = trim s.
Proof.
  unfold trim at 1. rewrite trim_front.
  unfold trim. rewrite rev_involutive, drop_while_idem. reflexivity.
Qed.

(** A global removal leaves a subject with no match as it is. *)
Lemma remove_from_absent (r : regex) (s : jsstring) :
  forall prev, occurs_from r prev s = false -> remove_from r 0 prev s = s.
Proof.
  induction s as [|c s IH]; intros prev H; [reflexivity|].
  cbn [occurs_from] in H. cbn [remove_from].
  destruct (match_at _ _) as [[|n]|].
  - f_equal. now apply IH.
  - discriminate.
  - f_equal. now apply IH.
Qed.

Lemma remove_all_absent (r : regex) (s : jsstring) :
  occurs r s = false -> remove_all r s = s.
Proof. apply remove_from_absent. Qed.

(** On a subject that holds no pattern the sanitizer only trims. *)
Lemma sanitizeInput_clean (s : jsstring) :
  clean s = true -> sanitizeInput s = trim s.
Proof.
  unfold clean, sanitizeInput. intros H.
  apply andb_prop in H as [H H3]. apply andb_prop in H as [H1 H2].
  apply negb_true_iff in H1, H2, H3.
  now rewrite (remove_all_absent _ _ H1), (remove_all_absent _ _ H2),
              (remove_all_absent _ _ H3).
Qed.

End SanitizerFacts.

(** C1 fails, and the failure is a fault of the sanitizer: it is not
    idempotent because one call can return a text that still holds a
    pattern it removes. In [jajavascript:vascript:] the one pass of the
    second pattern removes the inner [javascript:] and joins what is left
    into a new [javascript:], which that pass does not see again; the text
    returned holds the scheme, and a second call removes it. *)
Theorem sanitize_not_idempotent :
  sanitizeInput (str "jajavascript:vascript:") = str "javascript:"
  /\ occurs javascript_scheme (sanitizeInput (str "jajavascript:vascript:")) = true
  /\ sanitizeInput (sanitizeInput (str "jajavascript:vascript:")) = []
  /\ sanitizeInput (sanitizeInput (str "jajavascript:vascript:"))
     <> sanitizeInput (str "jajavascript:vascript:").
Proof.
  assert (H1 : sanitizeInput (str "jajavascript:vascript:") = str "javascript:")
    by (vm_compute; reflexivity).
  assert (H2 : sanitizeInput (str "javascript:") = []) by (vm_compute; reflexivity).
  rewrite H1, H2. repeat split. discriminate.
Qed.

(** ** The bounded buffers *)

Section BufferFacts.
Variable A : Type.

Lemma slice_last_length (n : nat) (l : list A) : length (slice_last n l) <= n.
Proof. unfold slice_last. rewrite length_skipn. lia. Qed.

Lemma slice_last_snoc (n : nat) (l : list A) (x : A) :
  slice_last (S n) (l ++ [x]) = slice_last n l ++ [x].
Proof.
  unfold slice_last. rewrite length_app. simpl length.
  replace (length l + 1 - S n) with (length l - n) by lia.
  rewrite skipn_app.
  replace (length l - n - length l) with 0 by lia. reflexivity.
Qed.

Lemma slice_last_shrink (n m : nat) (l : list A) :
  n <= m -> slice_last n (slice_last m l) = slice_last n l.
Proof.
  intros Hnm. unfold slice_last. rewrite length_skipn, skipn_skipn.
  f_equal. lia.
Qed.

(** After any pushes onto the empty transcript, it holds the latest 50 of
    them in the order they came. *)
Lemma transcript_is_latest (xs : list A) :
  fold_left (@push_transcript A) xs [] = slice_last 50 xs.
Proof.
  induction xs as [|x xs IH] using rev_ind; [reflexivity|].
  rewrite fold_left_app. cbn [fold_left]. rewrite IH.
  unfold push_transcript. rewrite slice_last_shrink by lia.
  now rewrite slice_last_snoc.
Qed.

(** After any pushes onto an empty newest-first buffer that keeps [n]
    more beside the new entry, it holds the latest [S n], newest first. *)
Lemma newest_first_is_latest (n : nat) (xs : list A) :
  fold_left (fun prev x => x :: slice_first n prev) xs [] = firstn (S n) (rev xs).
Proof.
  induction xs as [|x xs IH] using rev_ind; [reflexivity|].
  rewrite fold_left_app. cbn [fold_left]. rewrite IH.
  rewrite rev_app_distr. change (rev [x] ++ rev xs) with (x :: rev xs).
  rewrite firstn_cons. f_equal.
  unfold slice_first. rewrite firstn_firstn. f_equal. lia.
Qed.

End BufferFacts.

(** C5: whatever the buffer held before, a push leaves at most 50
    transcript segments, 10 snapshots, 5 feedback records; and after any
    sequence of pushes since the buffers were empty, the transcript is the
    latest 50 segments in the order they came (the oldest is the one that
    goes), while the snapshots are the latest 10 and the feedback the latest
    5, newest first (what lies beyond is dropped). *)
Theorem buffers_bounded (A : Type) (prev xs : list A) (x : A) :
  length (push_transcript prev x) <= 50
  /\ length (push_snapshot prev x) <= 10
  /\ length (push_feedback prev x) <= 5
  /\ length (fold_left (@push_transcript A) xs []) <= 50
  /\ length (fold_left (@push_snapshot A) xs []) <= 10
  /\ length (fold_left (@push_feedback A) xs []) <= 5
  /\ fold_left (@push_transcript A) xs [] = skipn (length xs - 50) xs
  /\ fold_left (@push_snapshot A) xs [] = firstn 10 (rev xs)
  /\ fold_left (@push_feedback A) xs [] = firstn 5 (rev xs).
Proof.
  assert (Hs : fold_left (@push_snapshot A) xs [] = firstn 10 (rev xs))
    by exact (newest_first_is_latest A 9 xs).
  assert (Hf : fold_left (@push_feedback A) xs [] = firstn 5 (rev xs))
    by exact (newest_first_is_latest A 4 xs).
  rewrite Hs, Hf, transcript_is_latest.
  unfold push_transcript, push_snapshot, push_feedback, slice_first.
  rewrite length_app. cbn [length].
  pose proof (slice_last_length A 49 prev).
  pose proof (slice_last_length A 50 xs).
  pose proof (firstn_le_length 9 prev).
  pose proof (firstn_le_length 4 prev).
  pose proof (firstn_le_length 10 (rev xs)).
  pose proof (firstn_le_length 5 (rev xs)).
  unfold slice_last in *.
  repeat split; lia.
Qed.

(** The handlers keep the bounds: a message leaves at most 50 segments in
    the transcript, and the end of a request at most 5 feedback records and
    10 snapshots, where there were no more before. *)
Lemma onmessage_keeps_bound
    (JSON_parse : jsstring -> option value) (data rnd : jsstring) (w : world) :
  length (transcription (comp w)) <= 50 ->
  length (transcription (comp (onmessage JSON_parse data rnd w))) <= 50.
Proof.
  intros H. unfold onmessage.
  destruct (inner_try JSON_parse (sanitizeInput data)) as [active|t]; [exact H|].
  destruct ((0 <? len t)%Z && (len t <? 1000)%Z)%bool; [|exact H].
  cbn. unfold push_transcript. rewrite length_app. cbn [length].
  pose proof (slice_last_length _ 49 (transcription (comp w))). lia.
Qed.

Lemma resume_keeps_bounds
    (StringToNumber : jsstring -> number) (ToPrimitive : value -> option jsstring)
    (o : fetch_outcome) (t : stamps) (fl : inflight) (s : state) :
  length (feedback s) <= 5 -> length (snapshots s) <= 10 ->
  let s' := fst (requestFeedback_resume StringToNumber ToPrimitive o t fl s) in
  length (feedback s') <= 5 /\ length (snapshots s') <= 10.
Proof.
  intros Hf Hs. cbv zeta. unfold requestFeedback_resume.
  destruct (try_after_fetch StringToNumber ToPrimitive o t fl s) as [s1|] eqn:E;
    cbn [fst]; [|split; assumption].
  unfold try_after_fetch in E.
  destruct o as [| |[|] [result|]]; try discriminate.
  unfold bind in E.
  destruct (newFeedback StringToNumber ToPrimitive result t) as [fb|]; [|discriminate].
  injection E as <-.
  unfold push_feedback, push_snapshot, slice_first.
  cbn [feedback snapshots setIsEvaluating setApiServerConnected setSnapshots
       setFeedback length].
  rewrite !length_firstn. lia.
Qed.

(** ** The score of a feedback record *)

Section ScoreFacts.

Lemma Qle_bool_false (p q : Q) : Qle_bool p q = false -> (q < p)%Q.
Proof.
  intros H. apply Qnot_le_lt. intros Hle.
  apply Qle_bool_iff in Hle. congruence.
Qed.

Lemma clamped_range (n : number) :
  exists q, clamped n = Fin q /\ (0 <= q)%Q /\ (q <= 10)%Q.
Proof.
  destruct n as [|[|]|q]; unfold clamped, or_zero; cbn [truthy].
  - exists 0%Q. repeat split; vm_compute; discriminate.
  - exists 0%Q. repeat split; vm_compute; discriminate.
  - exists 10%Q. repeat split; vm_compute; discriminate.
  - destruct (Qeq_bool q 0) eqn:E0; cbn [negb].
    + exists 0%Q. repeat split; vm_compute; discriminate.
    + cbn [Math_min num_leb]. destruct (Qle_bool 10 q) eqn:E10.
      * exists 10%Q. repeat split; vm_compute; discriminate.
      * cbn [Math_max num_leb]. destruct (Qle_bool 0 q) eqn:Eq0.
        -- exists q. repeat split.
           ++ now apply Qle_bool_iff.
           ++ apply Qlt_le_weak. now apply Qle_bool_false.
        -- exists 0%Q. repeat split; vm_compute; discriminate.
Qed.

Lemma clamped_above (q : Q) : (10 < q)%Q -> clamped (Fin q) = Fin 10.
Proof.
  intros H. unfold clamped, or_zero. cbn [truthy].
  assert (E0 : Qeq_bool q 0 = false).
  { apply not_true_is_false. intros E. apply Qeq_bool_iff in E.
    rewrite E in H. vm_compute in H. discriminate. }
  rewrite E0. cbn [negb Math_min num_leb].
  assert (E10 : Qle_bool 10 q = true) by (apply Qle_bool_iff; now apply Qlt_le_weak).
  rewrite E10. reflexivity.
Qed.

Lemma clamped_below (q : Q) : (q < 0)%Q -> clamped (Fin q) = Fin 0.
Proof.
  intros H. unfold clamped, or_zero. cbn [truthy].
  destruct (Qeq_bool q 0) eqn:E0; cbn [negb]; [reflexivity|].
  cbn [Math_min num_leb].
  assert (E10 : Qle_bool 10 q = false).
  { apply not_true_is_false. intros E. apply Qle_bool_iff in E.
    assert (Hlt : (10 < 0)%Q) by (eapply Qle_lt_trans; eassumption).
    vm_compute in Hlt. discriminate. }
  rewrite E10. cbn [Math_max num_leb].
  assert (Eq0 : Qle_bool 0 q = false).
  { apply not_true_is_false. intros E. apply Qle_bool_iff in E.
    exact (Qlt_not_le _ _ H E). }
  rewrite Eq0. reflexivity.
Qed.

Lemma clamped_within (q : Q) :
  (0 <= q)%Q -> (q <= 10)%Q -> exists q', clamped (Fin q) = Fin q' /\ (q' == q)%Q.
Proof.
  intros H0 H10. unfold clamped, or_zero. cbn [truthy].
  destruct (Qeq_bool q 0) eqn:E0; cbn [negb].
  - exists 0%Q. split; [reflexivity|]. apply Qeq_bool_iff in E0. now symmetry.
  - cbn [Math_min num_leb]. destruct (Qle_bool 10 q) eqn:E10.
    + exists 10%Q. split; [reflexivity|]. apply Qle_bool_iff in E10.
      now apply Qle_antisym.
    + cbn [Math_max num_leb]. apply Qle_bool_iff in H0. rewrite H0.
      exists q. split; reflexivity.
Qed.

Lemma clamped_integer (n : number) :
  is_integer n = true -> is_integer (clamped n) = true.
Proof.
  destruct n as [|b|q]; cbn [is_integer]; try discriminate.
  intros H. unfold clamped, or_zero. cbn [truthy].
  destruct (Qeq_bool q 0); cbn [negb]; [reflexivity|].
  cbn [Math_min num_leb]. destruct (Qle_bool 10 q); [reflexivity|].
  cbn [Math_max num_leb]. destruct (Qle_bool 0 q); [exact H | reflexivity].
Qed.

Variable StringToNumber : jsstring -> number.
Variable ToPrimitive : value -> option jsstring.

(** The score of a record that was built is the clamped conversion of
    [result.score]. *)
Lemma newFeedback_score (result : value) (t : stamps) (fb : AIFeedback) :
  newFeedback StringToNumber ToPrimitive result t = Some fb ->
  exists v n, prop result "score" = Some v
           /\ Number StringToNumber ToPrimitive v = Some n
           /\ score fb = clamped n.
Proof.
  unfold newFeedback, clamp_score, bind. intros H.
  destruct (prop result "score") as [v|] eqn:Hv; [|discriminate].
  destruct (Number StringToNumber ToPrimitive v) as [n|] eqn:Hn; [|discriminate].
  exists v, n. split; [reflexivity|]. split; [exact Hn|].
  repeat match type of H with
         | match ?x with _ => _ end = Some _ => destruct x; [|discriminate]
         end.
  injection H as <-. reflexivity.
Qed.

End ScoreFacts.

(** C2, as stated, fails: the stored score need not be an integer. A
    response whose score is 7.5 is folded into a record whose score is 7.5;
    the source clamps with [Math.max] and [Math.min] and rounds nowhere.
    (The two conversions of the language play no part on a number.) *)
Lemma stored_score_not_integer :
  exists fb,
    newFeedback (fun _ => NaN) (fun _ => None)
      (VObj [(str "score", VNum (Fin (15 # 2)))]) (mkStamps 1 1 1 1) = Some fb
    /\ score fb = Fin (15 # 2)
    /\ is_integer (score fb) = false.
Proof.
  eexists. split; [vm_compute; reflexivity|]. split; reflexivity.
Qed.

(** C2, amended: for every evaluation response that is folded into a
    FeedbackRecord, the stored score is a number in [0,10], and an integer
    whenever the response score converts to an integer: a converted score
    above 10 (or plus infinity) is stored as 10, one below 0 (or minus
    infinity) as 0, one that is NaN or zero as 0, and one within [0,10] is
    stored as it is. *)
Theorem stored_score_clamped
    (StringToNumber : jsstring -> number) (ToPrimitive : value -> option jsstring)
    (result : value) (t : stamps) (fb : AIFeedback) :
  newFeedback StringToNumber ToPrimitive result t = Some fb ->
  exists v n,
    prop result "score" = Some v
    /\ Number StringToNumber ToPrimitive v = Some n
    /\ (exists q, score fb = Fin q /\ (0 <= q)%Q /\ (q <= 10)%Q)
    /\ (forall q, n = Fin q -> (10 < q)%Q -> score fb = Fin 10)
    /\ (n = Inf false -> score fb = Fin 10)
    /\ (forall q, n = Fin q -> (q < 0)%Q -> score fb = Fin 0)
    /\ (n = Inf true -> score fb = Fin 0)
    /\ (n = NaN -> score fb = Fin 0)
    /\ (forall q, n = Fin q -> (0 <= q)%Q -> (q <= 10)%Q ->
        exists q', score fb = Fin q' /\ (q' == q)%Q)
    /\ (is_integer n = true -> is_integer (score fb) = true).
Proof.
  intros H.
  destruct (newFeedback_score _ _ _ _ _ H) as (v & n & Hv & Hn & Hs).
  exists v, n. rewrite Hs. repeat split; try assumption.
  - apply clamped_range.
  - intros q -> Hq. now apply clamped_above.
  - intros ->. reflexivity.
  - intros q -> Hq. now apply clamped_below.
  - intros ->. reflexivity.
  - intros ->. reflexivity.
  - intros q -> H0 H10. now apply clamped_within.
  - apply clamped_integer.
Qed.

(** A response with [score: 15] stores 10. *)
Lemma stored_score_clamped_witness :
  let result := VObj [(str "score", VNum (Fin 15))] in
  let fb := mkFeedback 1 2 (Fin 10) [] [] []
              (str "Code analysis completed") (str "Speech analysis completed") in
  newFeedback (fun _ => NaN) (fun _ => None) result (mkStamps 1 2 3 4) = Some fb
  /\ score fb = Fin 10.
Proof.
  intros result fb.
  assert (H : newFeedback (fun _ => NaN) (fun _ => None) result (mkStamps 1 2 3 4)
              = Some fb) by (vm_compute; reflexivity).
  split; [exact H|].
  destruct (stored_score_clamped _ _ _ _ _ H)
    as (v & n & Hv & Hn & _ & Habove & _).
  apply (Habove 15%Q); [|reflexivity].
  vm_compute in Hv. injection Hv as <-.
  vm_compute in Hn. injection Hn as <-. reflexivity.
Defined.

(** A response with [score: -3] stores 0, one with [score: true] stores 1,
    and one with no score stores 0. *)
Example stored_score_examples :
  let score_of v :=
    option_map score
      (newFeedback (fun _ => NaN) (fun _ => None) (VObj [(str "score", v)])
                   (mkStamps 1 2 3 4)) in
  score_of (VNum (Fin (-3))) = Some (Fin 0)
  /\ score_of (VBool true) = Some (Fin 1)
  /\ score_of VUndefined = Some (Fin 0)
  /\ score_of (VStr (str "abc")) = Some (Fin 0).
Proof. vm_compute. repeat split. Qed.

(** ** The gates of [requestFeedback] *)

Section GateFacts.

(** A call that the rate gate turns away changes nothing and does
    nothing. *)
Lemma rate_gate_closed (now stamp : Z) (s : state) :
  (now - lastApiCall s < 2000)%Z -> requestFeedback now stamp s = (s, [], None).
Proof.
  intros H. unfold requestFeedback, API_RATE_LIMIT.
  apply Z.ltb_lt in H. now rewrite H.
Qed.

Lemma invoke_requestFeedback (who : caller) (now stamp : Z) (s : state) :
  invoke who now stamp s = requestFeedback now stamp s.
Proof. now destruct who. Qed.

(** A call that gets past the rate gate leaves its own time in
    [lastApiCall], whatever happens to it afterwards. *)
Lemma rate_gate_open (now stamp : Z) (s : state) :
  (2000 <= now - lastApiCall s)%Z ->
  lastApiCall (fst (fst (requestFeedback now stamp s))) = now.
Proof.
  intros H. unfold requestFeedback, API_RATE_LIMIT.
  assert (E : (now - lastApiCall s <? 2000)%Z = false) by (apply Z.ltb_ge; lia).
  rewrite E.
  repeat match goal with
         | |- context [if ?b then _ else _] => destruct b
         end; reflexivity.
Qed.

(** A call that reaches the fetch has passed the rate gate. *)
Lemma dispatched_passed_gate (now stamp : Z) (s s1 : state)
    (acts : list action) (fl : inflight) :
  requestFeedback now stamp s = (s1, acts, Some fl) ->
  lastApiCall s1 = now /\ dispatches acts = 1.
Proof.
  unfold requestFeedback, API_RATE_LIMIT. intros H.
  repeat match type of H with
         | (if ?b then _ else _) = _ => destruct b; try discriminate
         end.
  injection H as <- <- _. split; reflexivity.
Qed.

(** [lastApiCall] never moves back. *)
Lemma lastApiCall_monotone (now stamp : Z) (s : state) :
  (lastApiCall s <= lastApiCall (fst (fst (requestFeedback now stamp s))))%Z.
Proof.
  destruct (Z.ltb_spec (now - lastApiCall s) 2000) as [H|H].
  - rewrite rate_gate_closed by exact H. simpl. lia.
  - rewrite rate_gate_open by exact H. lia.
Qed.

(** The content gate: what a call that it turns away leaves behind. *)
Lemma content_gate_closed (now stamp : Z) (s : state) :
  trim (code s) = [] \/ (10000 < len (code s))%Z ->
  requestFeedback now stamp s = (s, [], None)
  \/ requestFeedback now stamp s = (set_lastApiCall now s, [], None).
Proof.
  intros H. unfold requestFeedback.
  destruct (now - lastApiCall s <? API_RATE_LIMIT)%Z; [now left|right].
  cbn [code set_lastApiCall].
  destruct H as [H|H].
  - rewrite H. reflexivity.
  - apply Z.ltb_lt in H. rewrite H. now rewrite orb_true_r.
Qed.

End GateFacts.

(** C4: a call to [requestFeedback] made fewer than 2000 ms after the last
    accepted request is a silent no-op, whoever makes it. Where a first call
    at [t1] was accepted and dispatched, a second call at [t2], fewer than
    2000 ms later, by either caller and on any later state of the component
    (the time kept in [lastApiCall] never moves back), changes nothing, sets
    no flag and starts no fetch: the two calls make exactly one network
    dispatch. *)
Theorem rate_gate_one_dispatch
    (who1 who2 : caller) (t1 stamp1 t2 stamp2 : Z)
    (s s1 s1' : state) (acts1 : list action) (fl : inflight) :
  invoke who1 t1 stamp1 s = (s1, acts1, Some fl) ->
  (lastApiCall s1 <= lastApiCall s1')%Z ->
  (t2 - t1 < 2000)%Z ->
  invoke who2 t2 stamp2 s1' = (s1', [], None)
  /\ dispatches (acts1 ++ snd (fst (invoke who2 t2 stamp2 s1'))) = 1.
Proof.
  intros H1 Hmono Hlt.
  rewrite invoke_requestFeedback in H1.
  destruct (dispatched_passed_gate _ _ _ _ _ _ H1) as [Hlast Hone].
  rewrite !invoke_requestFeedback.
  assert (Hgate : requestFeedback t2 stamp2 s1' = (s1', [], None))
    by (apply rate_gate_closed; lia).
  rewrite Hgate. split; [reflexivity|].
  cbn [fst snd]. now rewrite app_nil_r.
Qed.

Lemma rate_gate_one_dispatch_witness :
  let s := setCode (str "let x = 1") initial in
  let first := invoke ManualButton 1700000000000 1700000000001 s in
  let s1 := fst (fst first) in
  exists fl,
    first = (s1, snd (fst first), Some fl)
    /\ invoke Scheduler 1700000001999 1700000002000 s1 = (s1, [], None)
    /\ dispatches (snd (fst first)
                   ++ snd (fst (invoke Scheduler 1700000001999 1700000002000 s1))) = 1.
Proof.
  intros s first s1.
  exists (mkInflight (str "let x = 1") (str "javascript")).
  assert (H : first = (s1, snd (fst first),
                       Some (mkInflight (str "let x = 1") (str "javascript"))))
    by (vm_compute; reflexivity).
  split; [exact H|].
  apply (rate_gate_one_dispatch ManualButton Scheduler
           1700000000000 1700000000001 1700000001999 1700000002000
           s s1 s1 (snd (fst first))
           (mkInflight (str "let x = 1") (str "javascript")) H); lia.
Defined.

(** C7: a call to [requestFeedback] while the code is empty after trimming
    or longer than 10,000 characters (10,001, say) starts no fetch and never
    calls [setIsEvaluating]: the evaluating flag stays as it was, and so do
    the buffers; nothing but the time kept for the rate gate can change. *)
Theorem content_gate_rejects
    (who : caller) (now stamp : Z) (s : state) :
  trim (code s) = [] \/ (10000 < len (code s))%Z ->
  let '(s', acts, fl) := invoke who now stamp s in
  acts = [] /\ fl = None
  /\ dispatches acts = 0
  /\ existsb sets_evaluating_true acts = false
  /\ isEvaluating s' = isEvaluating s
  /\ feedback s' = feedback s /\ snapshots s' = snapshots s
  /\ transcription s' = transcription s
  /\ apiServerConnected s' = apiServerConnected s.
Proof.
  intros H. rewrite invoke_requestFeedback.
  destruct (content_gate_closed now stamp s H) as [E|E]; rewrite E;
    repeat split; reflexivity.
Qed.

Lemma content_gate_rejects_witness :
  let s := setCode (repeat 97%N (Z.to_nat 10001)) initial in
  len (code s) = 10001%Z
  /\ (let '(s', acts, fl) := invoke ManualButton 1700000000000 1700000000001 s in
      acts = [] /\ fl = None
      /\ dispatches acts = 0
      /\ existsb sets_evaluating_true acts = false
      /\ isEvaluating s' = isEvaluating s
      /\ feedback s' = feedback s /\ snapshots s' = snapshots s
      /\ transcription s' = transcription s
      /\ apiServerConnected s' = apiServerConnected s).
Proof.
  intros s.
  assert (Hlen : len (code s) = 10001%Z) by (vm_compute; reflexivity).
  split; [exact Hlen|].
  apply (content_gate_rejects ManualButton 1700000000000 1700000000001 s).
  right. rewrite Hlen. reflexivity.
Defined.

(** C9: a call that passes the rate gate leaves its time in [lastApiCall]
    before the content gate is looked at. So a call at [t] that the content
    gate turns away (code empty after trimming, or longer than 10,000
    characters) is followed by no dispatch from any call made before
    [t + 2000], whatever the code is by then: the two calls make no network
    dispatch at all. *)
Theorem content_rejection_advances_clock
    (who1 who2 : caller) (t stamp t2 stamp2 : Z) (s s1' : state) :
  (2000 <= t - lastApiCall s)%Z ->
  trim (code s) = [] \/ (10000 < len (code s))%Z ->
  (lastApiCall (fst (fst (invoke who1 t stamp s))) <= lastApiCall s1')%Z ->
  (t2 < t + 2000)%Z ->
  invoke who1 t stamp s = (set_lastApiCall t s, [], None)
  /\ lastApiCall (fst (fst (invoke who1 t stamp s))) = t
  /\ invoke who2 t2 stamp2 s1' = (s1', [], None)
  /\ dispatches (snd (fst (invoke who1 t stamp s))
                 ++ snd (fst (invoke who2 t2 stamp2 s1'))) = 0.
Proof.
  intros Hgate Hcontent Hmono Hlt.
  rewrite !invoke_requestFeedback in *.
  assert (Hlast : lastApiCall (fst (fst (requestFeedback t stamp s))) = t)
    by now apply rate_gate_open.
  assert (Hfirst : requestFeedback t stamp s = (set_lastApiCall t s, [], None)).
  { destruct (content_gate_closed t stamp s Hcontent) as [E|E]; [|exact E].
    rewrite E in Hlast. cbn [fst] in Hlast. lia. }
  assert (Hsecond : requestFeedback t2 stamp2 s1' = (s1', [], None))
    by (apply rate_gate_closed; lia).
  rewrite Hfirst, Hsecond. repeat split.
Qed.

Lemma content_rejection_advances_clock_witness :
  let s := setCode (str "   ") initial in
  let s1' := setCode (str "let x = 1") (set_lastApiCall 1700000000000 s) in
  invoke ManualButton 1700000000000 1700000000001 s
    = (set_lastApiCall 1700000000000 s, [], None)
  /\ invoke Scheduler 1700000001999 1700000002000 s1' = (s1', [], None)
  /\ dispatches (snd (fst (invoke ManualButton 1700000000000 1700000000001 s))
                 ++ snd (fst (invoke Scheduler 1700000001999 1700000002000 s1'))) = 0.
Proof.
  intros s s1'.
  assert (H1 : (2000 <= 1700000000000 - lastApiCall s)%Z) by (vm_compute; discriminate).
  assert (H2 : trim (code s) = [] \/ (10000 < len (code s))%Z)
    by (left; vm_compute; reflexivity).
  assert (H3 : (lastApiCall
                  (fst (fst (invoke ManualButton 1700000000000 1700000000001 s)))
                <= lastApiCall s1')%Z) by (vm_compute; discriminate).
  assert (H4 : (1700000001999 < 1700000000000 + 2000)%Z) by reflexivity.
  destruct (content_rejection_advances_clock ManualButton Scheduler
              1700000000000 1700000000001 1700000001999 1700000002000
              s s1' H1 H2 H3 H4) as (A & _ & B & C).
  repeat split; assumption.
Defined.

(** ** Failure of an accepted request *)

Section FailureFacts.
Variable StringToNumber : jsstring -> number.
Variable ToPrimitive : value -> option jsstring.

(** The stages at which a request can fail once the fetch is under way: a
    dispatch error, the timeout, a response that is not a success, a body
    that is no JSON. *)
Lemma failing_stages (t : stamps) (fl : inflight) (s : state) (body : option value) :
  try_after_fetch StringToNumber ToPrimitive NetworkError t fl s = None
  /\ try_after_fetch StringToNumber ToPrimitive Aborted t fl s = None
  /\ try_after_fetch StringToNumber ToPrimitive (Responded false body) t fl s = None
  /\ try_after_fetch StringToNumber ToPrimitive (Responded true None) t fl s = None.
Proof. repeat split. Qed.

(** However the fetch ends, the run ends with [setIsEvaluating(false)]. *)
Lemma resume_clears_flag (o : fetch_outcome) (t : stamps) (fl : inflight) (s : state) :
  isEvaluating (fst (requestFeedback_resume StringToNumber ToPrimitive o t fl s)) = false
  /\ snd (requestFeedback_resume StringToNumber ToPrimitive o t fl s)
     = [Evaluating false].
Proof. split; reflexivity. Qed.

(** The part of a run before the fetch leaves the flag up only where it
    hands over to the fetch. *)
Lemma start_flag (now stamp : Z) (s s1 : state) (acts : list action) :
  requestFeedback now stamp s = (s1, acts, None) ->
  existsb sets_evaluating_true acts = true ->
  isEvaluating s1 = false /\ last acts (Evaluating true) = Evaluating false.
Proof.
  unfold requestFeedback. intros H Ht.
  repeat match type of H with
         | (if ?b then _ else _) = _ => destruct b
         end;
    injection H as <- <-; try discriminate; split; reflexivity.
Qed.

End FailureFacts.

(** C6: if an accepted evaluation request fails at any stage after the
    fetch was started (the [try] block throws: dispatch error, timeout,
    non-success response, unreadable body), then on the state the component
    is in when that happens no history buffer is changed, the availability
    of the evaluation service is set to false and the evaluating flag is
    cleared; and the flag is cleared on every exit path of an accepted
    request: however the fetch ends, and also where the run ends before the
    fetch because the sanitized code is empty. *)
Theorem failure_leaves_buffers
    (StringToNumber : jsstring -> number) (ToPrimitive : value -> option jsstring)
    (o : fetch_outcome) (t : stamps) (fl : inflight) (s : state) :
  try_after_fetch StringToNumber ToPrimitive o t fl s = None ->
  let s' := fst (requestFeedback_resume StringToNumber ToPrimitive o t fl s) in
  (feedback s' = feedback s /\ snapshots s' = snapshots s
   /\ transcription s' = transcription s)
  /\ apiServerConnected s' = false
  /\ isEvaluating s' = false
  /\ (forall body,
        try_after_fetch StringToNumber ToPrimitive NetworkError t fl s = None
        /\ try_after_fetch StringToNumber ToPrimitive Aborted t fl s = None
        /\ try_after_fetch StringToNumber ToPrimitive (Responded false body) t fl s = None)
  /\ (forall o' t' fl' s0,
        isEvaluating
          (fst (requestFeedback_resume StringToNumber ToPrimitive o' t' fl' s0)) = false)
  /\ (forall now stamp o' t' s0,
        let '(s2, acts) := run StringToNumber ToPrimitive now stamp o' t' s0 in
        existsb sets_evaluating_true acts = true ->
        isEvaluating s2 = false /\ last acts (Evaluating true) = Evaluating false).
Proof.
  intros H s'. subst s'.
  split; [|split; [|split; [|split; [|split]]]].
  - unfold requestFeedback_resume. rewrite H. repeat split.
  - unfold requestFeedback_resume. rewrite H. reflexivity.
  - apply resume_clears_flag.
  - intros body.
    destruct (failing_stages StringToNumber ToPrimitive t fl s body) as (A & B & C & _).
    repeat split; assumption.
  - intros o' t' fl' s0. apply resume_clears_flag.
  - intros now stamp o' t' s0. unfold run.
    destruct (requestFeedback now stamp s0) as [[s1 acts] [fl1|]] eqn:E.
    + intros _. split; [reflexivity|].
      cbn [snd requestFeedback_resume].
      now rewrite last_last.
    + intros Ht. exact (start_flag now stamp s0 s1 acts E Ht).
Qed.

Lemma failure_leaves_buffers_witness :
  let s := setIsEvaluating true (setCode (str "let x = 1") initial) in
  let fl := mkInflight (str "let x = 1") (str "javascript") in
  let t := mkStamps 1 2 3 4 in
  let s' := fst (requestFeedback_resume (fun _ => NaN) (fun _ => None)
                   (Responded false None) t fl s) in
  try_after_fetch (fun _ => NaN) (fun _ => None) (Responded false None) t fl s = None
  /\ feedback s' = feedback s /\ snapshots s' = snapshots s
  /\ transcription s' = transcription s
  /\ apiServerConnected s' = false /\ isEvaluating s' = false.
Proof.
  intros s fl t s'.
  assert (H : try_after_fetch (fun _ => NaN) (fun _ => None)
                (Responded false None) t fl s = None) by reflexivity.
  destruct (failure_leaves_buffers (fun _ => NaN) (fun _ => None)
              (Responded false None) t fl s H) as ((A & B & C) & D & E & _).
  repeat split; assumption.
Defined.

(** ** The session reset *)

(** The component with a session under way on an open channel: it is
    mounted against a server that is up, the socket opens, the session is
    started and one segment has arrived, so that the 60-second interval
    runs. *)
Example session_on_open_channel :
  let w := run_until (accepting 10) (fun _ => None) 100 5
             (mount_connect (accepting 10) mounted) in
  let w := with_comp (setSessionStarted true) w in
  let w := onmessage (fun _ => None) (str "two pointers") (str "k3x") w in
  let w := autoFeedbackEffect w in
  wsRef (comp w) = Some (mkSocket 0 OPEN)
  /\ isConnected (comp w) = true
  /\ length (transcription (comp w)) = 1
  /\ feedbackInterval w = true.
Proof. vm_compute. repeat split. Qed.

(** C3, as stated, fails: a reset does not tear the channel down. On the
    component above, after a click on the reset button the socket in
    [wsRef] is still open, the component still shows itself connected and
    the channel has been sent nothing but the handshake; [handleReset] does
    not touch [wsRef]. *)
Lemma reset_keeps_channel :
  let w := run_until (accepting 10) (fun _ => None) 100 5
             (mount_connect (accepting 10) mounted) in
  let w := with_comp (setSessionStarted true) w in
  let w := onmessage (fun _ => None) (str "two pointers") (str "k3x") w in
  let w := autoFeedbackEffect w in
  is_open (wsRef (comp w)) = true
  /\ is_open (wsRef (comp (click_reset w))) = true
  /\ isConnected (comp (click_reset w)) = true
  /\ sent (click_reset w) = sent w.
Proof. vm_compute. repeat split. Qed.

(** C3, amended: an explicit session reset clears all three history
    buffers (transcript, snapshots, feedback) and returns the
    automatic-evaluation scheduler to inactive; it leaves the channel as it
    is: the socket, the connected flag, the retry timer and the events to
    come are what they were. *)
Theorem reset_clears_buffers (w : world) :
  let w' := click_reset w in
  transcription (comp w') = []
  /\ snapshots (comp w') = []
  /\ feedback (comp w') = []
  /\ sessionStarted (comp w') = false
  /\ feedbackInterval w' = false
  /\ wsRef (comp w') = wsRef (comp w)
  /\ isConnected (comp w') = isConnected (comp w)
  /\ connectionRetryRef (comp w') = connectionRetryRef (comp w)
  /\ agenda w' = agenda w
  /\ sent w' = sent w.
Proof.
  cbv zeta. unfold click_reset, autoFeedbackEffect, auto_feedback_due.
  cbn. rewrite andb_false_r. repeat split.
Qed.

(** ** Status messages *)

Section StatusFacts.
Variable JSON_parse : jsstring -> option value.

(** A status message whose text-bearing field is a string, or is not
    there, writes no segment: it sets the speaking indicator, to true
    unless [active] is exactly [false], and nothing else. *)
Lemma status_message_sets_indicator
    (data rnd : jsstring) (fields : list (jsstring * value)) (t : jsstring)
    (w : world) :
  JSON_parse (sanitizeInput data) = Some (VObj fields) ->
  is_string (lookup (str "type") fields) "transcription_status" = true ->
  best_text (VObj fields) = Some (VStr t) ->
  onmessage JSON_parse data rnd w
  = with_comp (setIsTranscribing (negb (is_false (lookup (str "active") fields)))) w.
Proof.
  intros Hp Hty Ht. unfold onmessage, inner_try.
  rewrite Hp, Ht. cbn [sanitize_value prop]. rewrite Hty. reflexivity.
Qed.

Lemma status_message_active_absent (rnd : jsstring) (w : world) :
  JSON_parse (dq "{'type':'transcription_status'}")
    = Some (VObj [(str "type", VStr (str "transcription_status"))]) ->
  onmessage JSON_parse (dq "{'type':'transcription_status'}") rnd w
  = with_comp (setIsTranscribing true) w.
Proof.
  intros Hp.
  assert (Hs : sanitizeInput (dq "{'type':'transcription_status'}")
               = dq "{'type':'transcription_status'}") by (vm_compute; reflexivity).
  rewrite (status_message_sets_indicator _ rnd
             [(str "type", VStr (str "transcription_status"))] [] w);
    [reflexivity | now rewrite Hs | reflexivity | reflexivity].
Qed.

End StatusFacts.

(** C10 against the code: a status message that carries a text field which
    is not a string creates a TranscriptSegment. For the message
    [{"type":"transcription_status","active":false,"text":1}] the handler
    calls [sanitizeInput] on the number 1 before it looks at the type; the
    call throws, [catch (jsonError)] takes the raw text for the
    transcription, and the handler goes on to push a segment that holds the
    JSON text and to set the speaking indicator to true. *)
Theorem status_message_with_numeric_text
    (JSON_parse : jsstring -> option value) (rnd : jsstring) (w : world) :
  JSON_parse (dq "{'type':'transcription_status','active':false,'text':1}")
    = Some (VObj [(str "type", VStr (str "transcription_status"));
                  (str "active", VBool false);
                  (str "text", VNum (Fin 1))]) ->
  let raw := dq "{'type':'transcription_status','active':false,'text':1}" in
  let w' := onmessage JSON_parse raw rnd w in
  transcription (comp w')
    = push_transcript (transcription (comp w)) (mkSegment (now w, rnd) raw (now w))
  /\ isTranscribing (comp w') = true.
Proof.
  intros Hp raw w'. subst w'. fold raw in Hp.
  assert (Hs : sanitizeInput raw = raw) by (vm_compute; reflexivity).
  unfold onmessage, inner_try. rewrite Hs, Hp.
  assert (Hb : best_text (VObj [(str "type", VStr (str "transcription_status"));
                                (str "active", VBool false);
                                (str "text", VNum (Fin 1))])
               = Some (VNum (Fin 1))) by (vm_compute; reflexivity).
  rewrite Hb. cbn [sanitize_value].
  assert (Hl : ((0 <? len raw)%Z && (len raw <? 1000)%Z)%bool = true)
    by (vm_compute; reflexivity).
  rewrite Hl. split; reflexivity.
Qed.

Lemma status_message_with_numeric_text_witness :
  let raw := dq "{'type':'transcription_status','active':false,'text':1}" in
  let obj := VObj [(str "type", VStr (str "transcription_status"));
                   (str "active", VBool false);
                   (str "text", VNum (Fin 1))] in
  let parse := fun s => if jsstring_eqb s raw then Some obj else None in
  parse raw = Some obj
  /\ transcription (comp (onmessage parse raw (str "k3x") mounted))
     = [mkSegment (0%Z, str "k3x") raw 0]
  /\ isTranscribing (comp (onmessage parse raw (str "k3x") mounted)) = true.
Proof.
  intros raw obj parse.
  assert (Hp : parse raw = Some obj) by (vm_compute; reflexivity).
  split; [exact Hp|].
  exact (status_message_with_numeric_text parse (str "k3x") mounted Hp).
Defined.

(** ** Reconnection *)

Section ReconnectFacts.
Variable JSON_parse : jsstring -> option value.
Variable d : Z.
Hypothesis d_nonneg : (0 <= d)%Z.


















End ReconnectFacts.




(* ================================================================== *)
(** * Further properties *)
(* ================================================================== *)

Import Controls Calls Preview Patterns.

(** ** More on the sanitizer *)

Section SanitizerMore.

Lemma remove_from_length (r : regex) (s : jsstring) :
  forall (skip : nat) (prev : option cu),
    length (remove_from r skip prev s) <= length s.
Proof.
  induction s as [|c s IH]; intros skip prev; cbn [remove_from length]; [lia|].
  destruct skip as [|n].
  - destruct (match_at _ _) as [[|n]|]; cbn [length].
    + specialize (IH 0 (Some c)). lia.
    + specialize (IH n (Some c)). lia.
    + specialize (IH 0 (Some c)). lia.
  - specialize (IH n (Some c)). lia.
Qed.

Lemma drop_while_length (p : cu -> bool) (s : jsstring) :
  length (drop_while p s) <= length s.
Proof.
  induction s as [|c s IH]; cbn [drop_while length]; [lia|].
  destruct (p c); cbn [length]; lia.
Qed.

Lemma trim_length (s : jsstring) : length (trim s) <= length s.
Proof.
  unfold trim. rewrite length_rev.
  pose proof (drop_while_length is_space (rev (drop_while is_space s))).
  rewrite length_rev in H.
  pose proof (drop_while_length is_space s). lia.
Qed.

(** A list that dropping leaves alone does not start with what is
    dropped. *)
Lemma drop_while_fixed (p : cu -> bool) (s : jsstring) :
  drop_while p s = s ->
  match s with [] => True | c :: _ => p c = false end.
Proof.
  destruct s as [|c s]; [trivial|]. cbn [drop_while].
  destruct (p c); [|reflexivity].
  intros H. pose proof (drop_while_length p s) as L.
  rewrite H in L. cbn [length] in L. lia.
Qed.

End SanitizerMore.

Lemma sanitizeInput_length (x : jsstring) :
  length (sanitizeInput x) <= length x.
Proof.
  unfold sanitizeInput, remove_all.
  pose proof (trim_length
                (remove_from event_handler 0 None
                   (remove_from javascript_scheme 0 None
                      (remove_from script_block 0 None x)))) as H1.
  pose proof (remove_from_length event_handler
                (remove_from javascript_scheme 0 None
                   (remove_from script_block 0 None x)) 0 None) as H2.
  pose proof (remove_from_length javascript_scheme
                (remove_from script_block 0 None x) 0 None) as H3.
  pose proof (remove_from_length script_block x 0 None) as H4.
  lia.
Qed.

(** X1: [sanitizeInput] never makes a text longer, and what it is given
    empty it returns empty. *)
Theorem sanitize_never_longer (x : jsstring) :
  (len (sanitizeInput x) <= len x)%Z /\ sanitizeInput [] = [].
Proof.
  split; [|reflexivity].
  unfold len. pose proof (sanitizeInput_length x). lia.
Qed.

(** X2: what [sanitizeInput] returns neither starts nor ends with a blank
    (white space or a line terminator). *)
Theorem sanitize_is_trimmed (x : jsstring) :
  match sanitizeInput x with [] => True | c :: _ => is_space c = false end
  /\ match rev (sanitizeInput x) with [] => True | c :: _ => is_space c = false end.
Proof.
  unfold sanitizeInput.
  set (y := remove_all event_handler _). split.
  - apply drop_while_fixed. apply trim_front.
  - apply drop_while_fixed. unfold trim.
    rewrite rev_involutive. apply drop_while_idem.
Qed.

Section PassThrough.

Lemma star_iter_eq (r : regex) (k : pos -> option pos) (x : pos) :
  bt (Star r) k x = star_iter r k (length (snd x)) x.
Proof. reflexivity. Qed.

Lemma star_iter_S (r : regex) (k : pos -> option pos) (fuel : nat) (y : pos) :
  star_iter r k (S fuel) y
  = match bt r (fun z => if Nat.ltb (length (snd z)) (length (snd y))
                         then star_iter r k fuel z else None) y with
    | Some e => Some e
    | None => k y
    end.
Proof. reflexivity. Qed.

Lemma one_reaches (p : cu -> bool) (k : pos -> option pos) (x e : pos) :
  one p k x = Some e ->
  exists c s', snd x = c :: s' /\ p c = true /\ k (Some c, s') = Some e.
Proof.
  unfold one. destruct (snd x) as [|c s']; [discriminate|].
  destruct (p c) eqn:E; [|discriminate].
  intros H. exists c, s'. repeat split; assumption.
Qed.

(** A match goes on from a place further on in the subject: whatever the
    pattern, the rest of the match starts at a suffix of where it
    started. *)
Lemma bt_reaches (r : regex) :
  forall (k : pos -> option pos) (x e : pos),
    bt r k x = Some e ->
    exists y, k y = Some e /\ exists p, snd x = p ++ snd y.
Proof.
  induction r as [|c|c| | | |r1 IH1 r2 IH2|r1 IH1|r1 IH1];
    intros k x e H; cbn [bt] in H.
  - exists x. split; [exact H | exists []; reflexivity].
  - apply one_reaches in H as (d & s' & E & _ & H).
    exists (Some d, s'). split; [exact H | exists [d]; exact E].
  - apply one_reaches in H as (d & s' & E & _ & H).
    exists (Some d, s'). split; [exact H | exists [d]; exact E].
  - apply one_reaches in H as (d & s' & E & _ & H).
    exists (Some d, s'). split; [exact H | exists [d]; exact E].
  - apply one_reaches in H as (d & s' & E & _ & H).
    exists (Some d, s'). split; [exact H | exists [d]; exact E].
  - destruct (xorb _ _); [|discriminate].
    exists x. split; [exact H | exists []; reflexivity].
  - apply IH1 in H as (y1 & H1 & p1 & E1).
    apply IH2 in H1 as (y2 & H2 & p2 & E2).
    exists y2. split; [exact H2|]. exists (p1 ++ p2).
    rewrite E1, E2. apply app_assoc.
  - change (star_iter r1 k (length (snd x)) x = Some e) in H.
    revert H. generalize (length (snd x)) as fuel. revert x.
    intros x fuel. revert x.
    induction fuel as [|fuel IHf]; intros x H.
    + exists x. split; [exact H | exists []; reflexivity].
    + rewrite star_iter_S in H.
      destruct (bt r1 _ x) as [e'|] eqn:B.
      * injection H as ->.
        apply IH1 in B as (z1 & Hz1 & p1 & E1).
        destruct (Nat.ltb _ _); [|discriminate].
        apply IHf in Hz1 as (z & Hz & p & E).
        exists z. split; [exact Hz|]. exists (p1 ++ p).
        rewrite E1, E. apply app_assoc.
      * exists x. split; [exact H | exists []; reflexivity].
  - destruct (bt r1 _ x); [discriminate|].
    exists x. split; [exact H | exists []; reflexivity].
Qed.

Lemma canon_caseless (c d : cu) :
  caseless c = true -> N.eqb (canon d) (canon c) = true -> d = c.
Proof.
  unfold caseless, canon, in_range. intros Hc H.
  apply N.eqb_eq in H.
  apply andb_prop in Hc as [H1 H2].
  apply negb_true_iff in H1, H2.
  rewrite H2 in H.
  destruct (N.leb_spec 97 d), (N.leb_spec d 122); cbn [andb] in H; try exact H.
  subst c. exfalso.
  destruct (N.leb_spec 65 (d - 32)), (N.leb_spec (d - 32) 90);
    cbn [andb] in H1; try discriminate; lia.
Qed.

(** A match of a pattern that names a caseless code unit has that unit in
    the subject it started on. *)
Lemma mentions_consumes (c : cu) (r : regex) :
  caseless c = true -> mentions c r = true ->
  forall (k : pos -> option pos) (x e : pos),
    bt r k x = Some e -> In c (snd x).
Proof.
  intros Hc. induction r as [|c'|c'| | | |r1 IH1 r2 IH2|r1 IH1|r1 IH1];
    cbn [mentions]; try discriminate; intros Hm k x e H.
  - apply N.eqb_eq in Hm. subst c'. cbn [bt] in H.
    apply one_reaches in H as (d & s' & E & Hd & _).
    apply (canon_caseless c d Hc) in Hd. subst d.
    rewrite E. now left.
  - cbn [bt] in H. destruct (mentions c r1) eqn:M1.
    + exact (IH1 eq_refl _ _ _ H).
    + cbn [orb] in Hm.
      apply bt_reaches in H as (y & Hy & p & E).
      rewrite E. apply in_or_app. right. exact (IH2 Hm _ _ _ Hy).
Qed.

Lemma occurs_from_absent (c : cu) (r : regex) (s : jsstring) :
  caseless c = true -> mentions c r = true -> ~ In c s ->
  forall prev, occurs_from r prev s = false.
Proof.
  intros Hc Hm. induction s as [|d s IH]; intros Hn prev; [reflexivity|].
  cbn [occurs_from]. unfold match_at.
  destruct (bt r _ _) as [e|] eqn:B.
  - exfalso. apply Hn. exact (mentions_consumes c r Hc Hm _ _ _ B).
  - apply IH. intros Hin. apply Hn. now right.
Qed.

End PassThrough.

(** X3: a text that holds none of [<], [:] and [=] passes through the
    sanitizer unchanged but for the blanks trimmed at its ends. *)
Theorem plain_text_only_trimmed (x : jsstring) :
  ~ In 60%N x -> ~ In 58%N x -> ~ In 61%N x ->
  sanitizeInput x = trim x.
Proof.
  intros H60 H58 H61. apply sanitizeInput_clean. unfold clean, occurs.
  rewrite (occurs_from_absent 60%N script_block x eq_refl eq_refl H60).
  rewrite (occurs_from_absent 58%N javascript_scheme x eq_refl eq_refl H58).
  rewrite (occurs_from_absent 61%N event_handler x eq_refl eq_refl H61).
  reflexivity.
Qed.

Lemma plain_text_only_trimmed_witness :
  sanitizeInput (str "  use two pointers, then O(n) ") = str "use two pointers, then O(n)".
Proof.
  rewrite (plain_text_only_trimmed (str "  use two pointers, then O(n) ")).
  - vm_compute. reflexivity.
  - vm_compute. intuition discriminate.
  - vm_compute. intuition discriminate.
  - vm_compute. intuition discriminate.
Defined.

Section ScriptElement.

Lemma remove_from_skip_all (r : regex) (s : jsstring) :
  forall prev, remove_from r (length s) prev s = [].
Proof.
  induction s as [|c s IH]; intros prev; [reflexivity|].
  cbn [length remove_from]. apply IH.
Qed.

(** The greedy [[^<]*] runs over a stretch that holds no [<] and stops in
    front of the next [<], where the rest of the pattern is tried first. *)
Lemma star_not_lt_runs (l : jsstring) :
  forall (prev : option cu) (rest : jsstring) (k : pos -> option pos)
         (fuel : nat) (e : pos),
    ~ In 60%N l -> length l <= fuel ->
    k (fold_left (fun _ d => Some d) l prev, 60%N :: rest) = Some e ->
    star_iter (NotChr 60%N) k fuel (prev, l ++ 60%N :: rest) = Some e.
Proof.
  induction l as [|d l IH]; intros prev rest k fuel e Hn Hf Hk.
  - cbn [app fold_left] in *. destruct fuel as [|fuel]; [exact Hk|].
    rewrite star_iter_S. cbn [bt one snd].
    change (N.eqb (canon 60%N) (canon 60%N)) with true. cbn [negb]. exact Hk.
  - destruct fuel as [|fuel]; [cbn [length] in Hf; lia|].
    rewrite star_iter_S. cbn [bt one snd app].
    assert (Hd : negb (N.eqb (canon d) (canon 60%N)) = true).
    { apply negb_true_iff. apply not_true_is_false. intros E.
      apply (canon_caseless 60%N d eq_refl) in E. apply Hn. now left. }
    rewrite Hd.
    assert (Hlt : Nat.ltb (length (l ++ 60%N :: rest))
                          (length (d :: l ++ 60%N :: rest)) = true)
      by (apply Nat.ltb_lt; cbn [length]; lia).
    cbv beta. cbn [snd]. rewrite Hlt.
    rewrite (IH (Some d) rest k fuel e); [reflexivity | | | exact Hk].
    + intros Hin. apply Hn. now right.
    + cbn [length] in Hf. lia.
Qed.

End ScriptElement.

(** X4: a script element whose opening tag goes on after [<script] with a
    character that is neither a word character nor [<], and which holds no
    [<] before its closing tag, is removed whole: a text that is nothing
    but such an element sanitizes to the empty string. *)
Theorem script_element_removed (c : cu) (body : jsstring) :
  is_word c = false -> c <> 60%N -> ~ In 60%N body ->
  sanitizeInput (str "<script" ++ c :: body ++ str "</script>") = [].
Proof.
  intros Hw Hc Hb.
  assert (Hm : match_at script_block (None, str "<script" ++ c :: body ++ str "</script>")
               = Some (length (str "<script" ++ c :: body ++ str "</script>"))).
  { unfold match_at.
    assert (E : bt script_block (fun z => Some z)
                  (None, str "<script" ++ c :: body ++ str "</script>")
                = Some (Some 62%N, [])).
    { change (bt script_block (fun z => Some z)
                (None, str "<script" ++ c :: body ++ str "</script>"))
        with (if xorb (is_word 116%N) (is_word c)
              then star_iter (NotChr 60%N)
                     (bt (Cat (Star (Cat (NotAhead (lit "</script>"))
                                         (Cat (Chr 60%N) (Star (NotChr 60%N)))))
                              (lit "</script>"))
                         (fun z => Some z))
                     (length (c :: body ++ str "</script>"))
                     (Some 116%N, c :: body ++ str "</script>")
              else None).
      rewrite Hw. change (is_word 116%N) with true. cbn [xorb].
      change (c :: body ++ str "</script>")
        with ((c :: body) ++ 60%N :: str "/script>").
      apply star_not_lt_runs.
      - intros [H|H]; [now apply Hc | now apply Hb].
      - rewrite length_app. lia.
      - reflexivity. }
    rewrite E. cbn [snd length]. now rewrite Nat.sub_0_r. }
  assert (Hr : remove_all script_block (str "<script" ++ c :: body ++ str "</script>") = []).
  { unfold remove_all.
    change (str "<script" ++ c :: body ++ str "</script>")
      with (60%N :: (str "script" ++ c :: body ++ str "</script>")) in *.
    cbn [remove_from].
    destruct (match_at _ _) as [[|n]|]; cbn [length] in Hm; try discriminate Hm.
    injection Hm as ->. apply remove_from_skip_all. }
  unfold sanitizeInput. rewrite Hr. reflexivity.
Qed.

Lemma script_element_removed_witness :
  sanitizeInput (str "<script src=x>alert(1)</script>") = [].
Proof.
  apply (script_element_removed 32%N (str "src=x>alert(1)")).
  - reflexivity.
  - discriminate.
  - vm_compute. intuition discriminate.
Defined.

(** ** More on the evaluation request coordinator *)

Section CoordinatorMore.

Lemma firstn_len (n : Z) (s : jsstring) :
  (0 <= n)%Z -> (len (substring0 n s) <= n)%Z /\ (len (substring0 n s) <= len s)%Z.
Proof.
  intros Hn. unfold len, substring0. rewrite length_firstn. lia.
Qed.

Lemma nonempty_len (s : jsstring) : s <> [] <-> (0 < len s)%Z.
Proof.
  unfold len. destruct s; cbn [length]; split; intros H;
    try congruence; try lia.
Qed.

(** What a run of [requestFeedback] up to the fetch comes to, case by
    case. *)
Lemma requestFeedback_cases (now stamp : Z) (s : state) :
  ((now - lastApiCall s < 2000)%Z
   /\ requestFeedback now stamp s = (s, [], None))
  \/ ((2000 <= now - lastApiCall s)%Z
      /\ (trim (code s) = [] \/ (10000 < len (code s))%Z)
      /\ requestFeedback now stamp s = (set_lastApiCall now s, [], None))
  \/ ((2000 <= now - lastApiCall s)%Z
      /\ trim (code s) <> [] /\ (len (code s) <= 10000)%Z
      /\ sanitizeInput (trim (code s)) = []
      /\ requestFeedback now stamp s
         = (setIsEvaluating false (setIsEvaluating true (set_lastApiCall now s)),
            [Evaluating true; Evaluating false], None))
  \/ ((2000 <= now - lastApiCall s)%Z
      /\ trim (code s) <> [] /\ (len (code s) <= 10000)%Z
      /\ sanitizeInput (trim (code s)) <> []
      /\ exists body,
           requestFeedback now stamp s
           = (setIsEvaluating true (set_lastApiCall now s),
              [Evaluating true; Dispatch body],
              Some (mkInflight (sanitizeInput (trim (code s))) (language s)))
           /\ ev_code body = substring0 5000 (sanitizeInput (trim (code s)))
           /\ ev_transcript body
              = substring0 2000
                  (join (str " ")
                     (map (fun t => sanitizeInput (text t)) (transcription s)))
           /\ ev_language body = sanitizeInput (language s)
           /\ ev_question body = getCurrentQuestion s
           /\ ev_timestamp body = stamp).
Proof.
  unfold requestFeedback, API_RATE_LIMIT.
  destruct (Z.ltb_spec (now - lastApiCall s) 2000) as [Hr|Hr]; [left; now split|].
  right. cbn [code set_lastApiCall setIsEvaluating transcription language].
  destruct (trim (code s)) as [|c t] eqn:Et.
  { left. cbn [orb]. repeat split; auto. }
  cbn [orb]. destruct (Z.ltb_spec 10000 (len (code s))) as [Hl|Hl].
  { left. repeat split; auto. }
  right.
  destruct (Z.eqb_spec (len (sanitizeInput (c :: t))) 0) as [E|E].
  - left. repeat split; try assumption; try discriminate.
    unfold len in E. destruct (sanitizeInput (c :: t)); [reflexivity|].
    cbn [length] in E. lia.
  - right. repeat split; try assumption; try discriminate.
    + intros H. rewrite H in E. now apply E.
    + eexists. repeat split.
Qed.

End CoordinatorMore.

(** X5: [requestFeedback] starts a fetch exactly when at least 2000 ms have
    passed since the time kept for the rate gate, the code is not blank, it
    has at most 10,000 characters, and it is not empty once sanitized; it
    then starts exactly one, and in every other case none. *)
Theorem dispatch_exactly_when (now stamp : Z) (s : state) :
  let acts := snd (fst (requestFeedback now stamp s)) in
  (dispatches acts = 1
   <-> ((2000 <= now - lastApiCall s)%Z
        /\ trim (code s) <> []
        /\ (len (code s) <= 10000)%Z
        /\ sanitizeInput (trim (code s)) <> []))
  /\ (dispatches acts = 0 \/ dispatches acts = 1).
Proof.
  cbv zeta.
  destruct (requestFeedback_cases now stamp s)
    as [[H E]|[(H1 & H2 & E)|[(H1 & H2 & H3 & H4 & E)|(H1 & H2 & H3 & H4 & body & E & _)]]];
    rewrite E; cbn [fst snd dispatches filter is_dispatch length].
  - split; [|now left]. split; [discriminate|]. intros (G & _). lia.
  - split; [|now left]. split; [discriminate|].
    intros (_ & G1 & G2 & _). destruct H2; [contradiction | lia].
  - split; [|now left]. split; [discriminate|].
    intros (_ & _ & _ & G). contradiction.
  - split; [|now right]. split; [intros _; repeat split; assumption | reflexivity].
Qed.

(** X6: the body of every request that is sent is bounded: its code is the
    first 5000 characters of the sanitized code and has between 1 and 5000
    characters, and its transcript has at most 2000. *)
Theorem payload_bounded (now stamp : Z) (s s1 : state)
    (acts : list action) (fl : inflight) (body : evaluationData) :
  requestFeedback now stamp s = (s1, acts, Some fl) ->
  In (Dispatch body) acts ->
  ev_code body = substring0 5000 (sanitizedCode fl)
  /\ sanitizedCode fl = sanitizeInput (trim (code s))
  /\ (1 <= len (ev_code body) <= 5000)%Z
  /\ (len (ev_transcript body) <= 2000)%Z.
Proof.
  intros E Hin.
  destruct (requestFeedback_cases now stamp s)
    as [[H E']|[(H1 & H2 & E')|[(H1 & H2 & H3 & H4 & E')|(H1 & H2 & H3 & H4 & b & E' & Hc & Ht & _)]]];
    rewrite E' in E; try discriminate.
  injection E as <- <- <-.
  destruct Hin as [Hin|[Hin|[]]]; [discriminate|]. injection Hin as <-.
  cbn [sanitizedCode]. rewrite Hc, Ht.
  split; [reflexivity|]. split; [reflexivity|].
  pose proof (firstn_len 5000 (sanitizeInput (trim (code s))) ltac:(lia)) as [B1 _].
  pose proof (firstn_len 2000
                (join (str " ")
                   (map (fun t => sanitizeInput (text t)) (transcription s)))
                ltac:(lia)) as [B2 _].
  split; [split; [|exact B1] | exact B2].
  apply nonempty_len in H4.
  unfold len, substring0 in *. rewrite length_firstn. lia.
Qed.

Lemma payload_bounded_witness :
  let s := setCode (str "let x = 1") initial in
  exists s1 acts fl body,
    requestFeedback 1700000000000 1700000000001 s = (s1, acts, Some fl)
    /\ In (Dispatch body) acts
    /\ (1 <= len (ev_code body) <= 5000)%Z.
Proof.
  intros s.
  assert (E : requestFeedback 1700000000000 1700000000001 s
              = (fst (fst (requestFeedback 1700000000000 1700000000001 s)),
                 [Evaluating true;
                  Dispatch (mkEvaluationData (str "let x = 1") [] (str "javascript")
                              (str "No question selected") None 1700000000001)],
                 Some (mkInflight (str "let x = 1") (str "javascript"))))
    by (vm_compute; reflexivity).
  eexists. eexists. eexists. eexists.
  split; [exact E|]. split; [right; left; reflexivity|].
  apply (payload_bounded _ _ _ _ _ _ _ E). right. left. reflexivity.
Defined.

Section SpacingFacts.

Lemma spaced_from_earlier (a b : Z) (times : list Z) :
  (b <= a)%Z -> spaced_from a times -> spaced_from b times.
Proof.
  destruct times as [|t rest]; cbn [spaced_from]; [trivial|].
  intros Hab [H1 H2]. split; [lia | exact H2].
Qed.

End SpacingFacts.

(** X7: whatever the sequence of calls of [requestFeedback], by whichever
    caller, and whatever happens to the component between them ([lastApiCall]
    is written by [requestFeedback] alone), two fetches are never started
    less than 2000 ms apart, and none less than 2000 ms after the time
    [lastApiCall] held at the start. *)
Theorem dispatches_spaced (calls : list call) (s : state) :
  Forall (fun c => forall s, lastApiCall (call_before c s) = lastApiCall s) calls ->
  spaced_from (lastApiCall s) (dispatch_times calls s).
Proof.
  intros H. revert s.
  induction H as [|c calls Hc _ IH]; intros s; cbn [dispatch_times]; [exact I|].
  specialize (Hc s).
  destruct (requestFeedback_cases (call_at c) (call_stamp c) (call_before c s))
    as [[H E]|[(H1 & H2 & E)|[(H1 & H2 & H3 & H4 & E)|(H1 & H2 & H3 & H4 & body & E & _)]]];
    rewrite E; cbn [fst snd dispatches filter is_dispatch length Nat.ltb Nat.leb app].
  - rewrite <- Hc. apply IH.
  - eapply spaced_from_earlier; [|apply IH]. cbn [lastApiCall set_lastApiCall]. lia.
  - eapply spaced_from_earlier; [|apply IH]. cbn. lia.
  - cbn [spaced_from]. split; [lia|].
    exact (IH (setIsEvaluating true (set_lastApiCall (call_at c) (call_before c s)))).
Qed.

Lemma dispatches_spaced_witness :
  let s := setCode (str "let x = 1") initial in
  let calls :=
    [ mkCall 1700000000000 1700000000000 (fun s => s);
      mkCall 1700000001000 1700000001000 (setIsEvaluating false);
      mkCall 1700000002500 1700000002500 (setCode (str "let y = 2"));
      mkCall 1700000004400 1700000004400 (fun s => s);
      mkCall 1700000004500 1700000004500 (fun s => s) ] in
  dispatch_times calls s = [1700000000000; 1700000002500; 1700000004500]%Z
  /\ spaced_from (lastApiCall s) (dispatch_times calls s).
Proof.
  intros s calls. split; [vm_compute; reflexivity|].
  apply (dispatches_spaced calls s).
  repeat constructor.
Defined.

(** ** More on the folding of a response *)

Section ResponseFacts.
Variable StringToNumber : jsstring -> number.
Variable ToPrimitive : value -> option jsstring.

Lemma traverse_Forall {A B : Type} (f : A -> option B) (P : B -> Prop) (l : list A) :
  (forall a b, f a = Some b -> P b) ->
  forall l', traverse f l = Some l' -> Forall P l' /\ length l' = length l.
Proof.
  intros Hf. induction l as [|a l IH]; intros l' H; cbn [traverse] in H.
  - injection H as <-. split; [constructor | reflexivity].
  - unfold bind in H. destruct (f a) as [b|] eqn:Ea; [|discriminate].
    destruct (traverse f l) as [bs|]; [|discriminate].
    injection H as <-. destruct (IH bs eq_refl) as [IH1 IH2].
    split; [constructor; [exact (Hf a b Ea) | exact IH1] | cbn [length]; lia].
Qed.

Lemma traverse_None {A B : Type} (f : A -> option B) (l : list A) (a : A) :
  In a l -> f a = None -> traverse f l = None.
Proof.
  intros Hin Ha. induction l as [|x l IH]; [contradiction|].
  cbn [traverse]. unfold bind. destruct Hin as [->|Hin].
  - now rewrite Ha.
  - destruct (f x); [|reflexivity]. now rewrite (IH Hin).
Qed.

Lemma sanitized_cut_len (n : Z) (t : jsstring) :
  (0 <= n)%Z -> (len (sanitizeInput (substring0 n t)) <= n)%Z.
Proof.
  intros Hn. pose proof (sanitizeInput_length (substring0 n t)) as H.
  pose proof (firstn_len n t Hn) as [H1 _]. unfold len in *. lia.
Qed.

Lemma string_list_bounded (v : value) (l : list jsstring) :
  string_list v = Some l ->
  length l <= 5 /\ Forall (fun t => (len t <= 200)%Z) l.
Proof.
  destruct v; cbn [string_list]; intros H;
    try (injection H as <-; split; [cbn; lia | constructor]).
  apply (traverse_Forall _ (fun t => (len t <= 200)%Z)) in H as [H1 H2].
  - split; [|exact H1]. rewrite H2, length_firstn. lia.
  - intros a b. destruct a; try discriminate.
    intros E. injection E as <-. apply sanitized_cut_len. lia.
Qed.

Lemma analysis_bounded (v : value) (fallback : string) (a : jsstring) :
  analysis v fallback = Some a -> (len a <= 500)%Z.
Proof.
  unfold analysis. destruct (or_else v _); try discriminate.
  intros E. injection E as <-. apply sanitized_cut_len. lia.
Qed.

Lemma string_list_rejects (items : list value) (v : value) :
  In v (firstn 5 items) -> (forall t, v <> VStr t) ->
  string_list (VArr items) = None.
Proof.
  intros Hin Hv. cbn [string_list].
  apply (traverse_None _ _ v Hin).
  destruct v; try reflexivity. exfalso. now apply (Hv s).
Qed.

End ResponseFacts.

(** X8: every feedback record that is built is bounded: each of its three
    lists has at most 5 entries of at most 200 characters, and each of its
    two analyses has at most 500 characters. *)
Theorem feedback_record_bounded
    (StringToNumber : jsstring -> number) (ToPrimitive : value -> option jsstring)
    (result : value) (t : stamps) (fb : AIFeedback) :
  newFeedback StringToNumber ToPrimitive result t = Some fb ->
  (length (strengths fb) <= 5 /\ Forall (fun x => (len x <= 200)%Z) (strengths fb))
  /\ (length (improvements fb) <= 5
      /\ Forall (fun x => (len x <= 200)%Z) (improvements fb))
  /\ (length (optimizations fb) <= 5
      /\ Forall (fun x => (len x <= 200)%Z) (optimizations fb))
  /\ (len (codeAnalysis fb) <= 500)%Z
  /\ (len (speechAnalysis fb) <= 500)%Z.
Proof.
  unfold newFeedback, bind. intros H.
  destruct (prop result "score"); [|discriminate].
  destruct (clamp_score _ _ _); [|discriminate].
  destruct (prop result "strengths"); [|discriminate].
  destruct (string_list v0) as [l1|] eqn:E1; [|discriminate].
  destruct (prop result "improvements"); [|discriminate].
  destruct (string_list v1) as [l2|] eqn:E2; [|discriminate].
  destruct (prop result "optimizations"); [|discriminate].
  destruct (string_list v2) as [l3|] eqn:E3; [|discriminate].
  destruct (prop result "code_analysis"); [|discriminate].
  destruct (analysis v3 _) as [a1|] eqn:E4; [|discriminate].
  destruct (prop result "speech_analysis"); [|discriminate].
  destruct (analysis v4 _) as [a2|] eqn:E5; [|discriminate].
  injection H as <-. cbn [strengths improvements optimizations codeAnalysis speechAnalysis].
  split; [exact (string_list_bounded _ _ E1)|].
  split; [exact (string_list_bounded _ _ E2)|].
  split; [exact (string_list_bounded _ _ E3)|].
  split; [exact (analysis_bounded _ _ _ E4) | exact (analysis_bounded _ _ _ E5)].
Qed.

Lemma feedback_record_bounded_witness :
  let result :=
    VObj [(str "score", VNum (Fin 7));
          (str "strengths",
           VArr [VStr (str "a"); VStr (str "b"); VStr (str "c");
                 VStr (str "d"); VStr (str "e"); VStr (str "f")])] in
  exists fb,
    newFeedback (fun _ => NaN) (fun _ => None) result (mkStamps 1 2 3 4) = Some fb
    /\ strengths fb = [str "a"; str "b"; str "c"; str "d"; str "e"]
    /\ length (strengths fb) <= 5.
Proof.
  intros result. eexists.
  assert (E : newFeedback (fun _ => NaN) (fun _ => None) result (mkStamps 1 2 3 4)
              = Some (mkFeedback 1 2 (Fin 7)
                        [str "a"; str "b"; str "c"; str "d"; str "e"] [] []
                        (str "Code analysis completed")
                        (str "Speech analysis completed")))
    by (vm_compute; reflexivity).
  split; [exact E|]. split; [reflexivity|].
  exact (proj1 (proj1 (feedback_record_bounded _ _ _ _ _ E))).
Defined.

(** X9: a response in which one of the first five entries of [strengths],
    [improvements] or [optimizations] is not a string is a failed request:
    no record is built (the entry has no [substring]), no buffer is changed
    and the service is marked unavailable. *)
Theorem non_string_entry_fails
    (StringToNumber : jsstring -> number) (ToPrimitive : value -> option jsstring)
    (key : string) (result : value) (items : list value) (v : value)
    (t : stamps) (fl : inflight) (s : state) :
  key = "strengths"%string \/ key = "improvements"%string
    \/ key = "optimizations"%string ->
  prop result key = Some (VArr items) ->
  In v (firstn 5 items) -> (forall x, v <> VStr x) ->
  newFeedback StringToNumber ToPrimitive result t = None
  /\ let s' := fst (requestFeedback_resume StringToNumber ToPrimitive
                      (Responded true (Some result)) t fl s) in
     feedback s' = feedback s /\ snapshots s' = snapshots s
     /\ apiServerConnected s' = false /\ isEvaluating s' = false.
Proof.
  intros Hkey Hp Hin Hv.
  pose proof (string_list_rejects items v Hin Hv) as Hrej.
  assert (HN : newFeedback StringToNumber ToPrimitive result t = None).
  { unfold newFeedback, bind.
    destruct (prop result "score"); [|reflexivity].
    destruct (clamp_score _ _ _); [|reflexivity].
    destruct Hkey as [->|[->| ->]].
    - rewrite Hp, Hrej. reflexivity.
    - destruct (prop result "strengths"); [|reflexivity].
      destruct (string_list v1); [|reflexivity].
      rewrite Hp, Hrej. reflexivity.
    - destruct (prop result "strengths"); [|reflexivity].
      destruct (string_list v1); [|reflexivity].
      destruct (prop result "improvements"); [|reflexivity].
      destruct (string_list v2); [|reflexivity].
      rewrite Hp, Hrej. reflexivity. }
  split; [exact HN|].
  cbv zeta. unfold requestFeedback_resume, try_after_fetch, bind.
  rewrite HN. repeat split.
Qed.

Lemma non_string_entry_fails_witness :
  let result := VObj [(str "score", VNum (Fin 7));
                      (str "improvements", VArr [VStr (str "naming"); VNum (Fin 3)])] in
  let s := setIsEvaluating true (setApiServerConnected true initial) in
  let s' := fst (requestFeedback_resume (fun _ => NaN) (fun _ => None)
                   (Responded true (Some result)) (mkStamps 1 2 3 4)
                   (mkInflight (str "x") (str "javascript")) s) in
  feedback s' = [] /\ snapshots s' = []
  /\ apiServerConnected s' = false /\ isEvaluating s' = false.
Proof.
  intros result s s'.
  destruct (non_string_entry_fails (fun _ => NaN) (fun _ => None)
              "improvements" result [VStr (str "naming"); VNum (Fin 3)]
              (VNum (Fin 3)) (mkStamps 1 2 3 4)
              (mkInflight (str "x") (str "javascript")) s) as [_ H].
  - right. left. reflexivity.
  - reflexivity.
  - right. left. reflexivity.
  - discriminate.
  - exact H.
Defined.

(** X10: a response that has none of the six fields (an empty object, or a
    body that is a number, a string, a boolean or an array) still gives a
    record: score 0, three empty lists and the two fallback texts. *)
Theorem fieldless_response_defaults
    (StringToNumber : jsstring -> number) (ToPrimitive : value -> option jsstring)
    (result : value) (t : stamps) :
  (forall key, prop result key = Some VUndefined) ->
  newFeedback StringToNumber ToPrimitive result t
  = Some (mkFeedback (at_feedback_id t) (at_feedback t) (Fin 0) [] [] []
            (str "Code analysis completed") (str "Speech analysis completed")).
Proof.
  intros H. unfold newFeedback, bind. rewrite !H.
  cbn [clamp_score Number bind string_list].
  assert (E1 : analysis VUndefined "Code analysis completed"
               = Some (str "Code analysis completed")) by (vm_compute; reflexivity).
  assert (E2 : analysis VUndefined "Speech analysis completed"
               = Some (str "Speech analysis completed")) by (vm_compute; reflexivity).
  rewrite E1, E2. reflexivity.
Qed.

Lemma fieldless_response_defaults_witness :
  newFeedback (fun _ => NaN) (fun _ => None) (VArr [VNum (Fin 9)]) (mkStamps 1 2 3 4)
  = Some (mkFeedback 1 2 (Fin 0) [] [] []
            (str "Code analysis completed") (str "Speech analysis completed")).
Proof.
  apply (fieldless_response_defaults (fun _ => NaN) (fun _ => None)
           (VArr [VNum (Fin 9)]) (mkStamps 1 2 3 4)).
  intros key. reflexivity.
Defined.

(** X11: the end of a request changes the feedback buffer and the snapshot
    buffer together or not at all: either both are as they were and the
    service is marked unavailable, or each has one new entry at its head,
    the snapshot holds the sanitized code that was submitted (all of it,
    though the request carried 5000 characters at most), and the service is
    marked available. The transcript, the code and the time kept for the
    rate gate are never touched, and the evaluating flag is down. *)
Theorem feedback_and_snapshot_together
    (StringToNumber : jsstring -> number) (ToPrimitive : value -> option jsstring)
    (o : fetch_outcome) (t : stamps) (fl : inflight) (s : state) :
  let s' := fst (requestFeedback_resume StringToNumber ToPrimitive o t fl s) in
  ((feedback s' = feedback s /\ snapshots s' = snapshots s
    /\ apiServerConnected s' = false)
   \/ (exists fb,
         feedback s' = fb :: firstn 4 (feedback s)
         /\ snapshots s'
            = mkSnapshot (at_snapshot_id t) (sanitizedCode fl) (at_snapshot t)
                         (sanitizeInput (submitted_language fl))
              :: firstn 9 (snapshots s)
         /\ apiServerConnected s' = true))
  /\ transcription s' = transcription s
  /\ code s' = code s
  /\ lastApiCall s' = lastApiCall s
  /\ isEvaluating s' = false.
Proof.
  cbv zeta. unfold requestFeedback_resume.
  destruct (try_after_fetch StringToNumber ToPrimitive o t fl s) as [s1|] eqn:E;
    cbn [fst].
  - unfold try_after_fetch in E.
    destruct o as [| |[|] [result|]]; try discriminate.
    unfold bind in E.
    destruct (newFeedback StringToNumber ToPrimitive result t) as [fb|]; [|discriminate].
    injection E as <-. split; [right; exists fb|]; repeat split.
  - split; [left|]; repeat split.
Qed.

(** ** More on the channel *)

Section ChannelMore.
Variable net : network.
Variable JSON_parse : jsstring -> option value.

Lemma mark_transcription (id : nat) (r : readyState) (s : state) :
  transcription (mark id r s) = transcription s.
Proof.
  unfold mark. destruct (wsRef s) as [[i r']|]; [|reflexivity].
  destruct (Nat.eqb id i); reflexivity.
Qed.

Lemma connectWebSocket_transcription (lang : jsstring) (w : world) :
  transcription (comp (connectWebSocket net lang w)) = transcription (comp w).
Proof.
  unfold connectWebSocket. destruct (is_open _); [reflexivity|].
  destruct (url_ok net); reflexivity.
Qed.

Lemma onopen_transcription (id : nat) (w : world) :
  transcription (comp (onopen id w)) = transcription (comp w).
Proof.
  unfold onopen, with_comp, clearTimeout, with_agenda.
  cbn [comp connectionRetryRef setIsConnected].
  destruct (connectionRetryRef _); cbn [comp];
    destruct (is_open _); cbn [comp transcription setIsConnected];
    apply mark_transcription.
Qed.

Lemma onclose_transcription (id : nat) (w : world) :
  transcription (comp (onclose id w)) = transcription (comp w).
Proof.
  unfold onclose, setTimeout, with_comp. cbn. apply mark_transcription.
Qed.

(** What a message does to the transcript: nothing, or one push of a
    segment whose text has between 1 and 999 characters. *)
Lemma onmessage_transcription (data rnd : jsstring) (w : world) :
  transcription (comp (onmessage JSON_parse data rnd w)) = transcription (comp w)
  \/ exists seg,
       (0 < len (text seg) < 1000)%Z
       /\ transcription (comp (onmessage JSON_parse data rnd w))
          = push_transcript (transcription (comp w)) seg.
Proof.
  unfold onmessage.
  destruct (inner_try JSON_parse (sanitizeInput data)) as [active|t]; [now left|].
  destruct (Z.ltb_spec 0 (len t)) as [H0|H0]; cbn [andb]; [|now left].
  destruct (Z.ltb_spec (len t) 1000) as [H1|H1]; [|now left].
  right. exists (mkSegment (now w, rnd) t (now w)). split; [cbn; lia | reflexivity].
Qed.

Lemma deliver_transcription (e : event) (w : world) :
  transcription (comp (deliver net JSON_parse e w)) = transcription (comp w)
  \/ exists seg,
       (0 < len (text seg) < 1000)%Z
       /\ transcription (comp (deliver net JSON_parse e w))
          = push_transcript (transcription (comp w)) seg.
Proof.
  destruct e as [id [|]|id|id|id|id data rnd]; cbn [deliver].
  - left. apply connectWebSocket_transcription.
  - left. reflexivity.
  - left. apply onopen_transcription.
  - left. reflexivity.
  - left. apply onclose_transcription.
  - apply onmessage_transcription.
Qed.

Lemma Forall_skipn_keep {A : Type} (P : A -> Prop) (n : nat) (l : list A) :
  Forall P l -> Forall P (skipn n l).
Proof.
  revert l. induction n as [|n IH]; intros l H; [exact H|].
  destruct l as [|a l]; [constructor|]. cbn [skipn]. apply IH.
  now inversion H.
Qed.

Lemma run_until_step (T : Z) (fuel : nat) (w : world) (t : Z) (e : event)
    (rest : list (Z * event)) :
  agenda w = (t, e) :: rest -> (t <= T)%Z ->
  run_until net JSON_parse T (S fuel) w
  = run_until net JSON_parse T fuel
      (deliver net JSON_parse e
         (mkWorld t (comp w) rest (attempts w) (next_socket w) (next_timer w)
                  (sent w) (feedbackInterval w) (closures w))).
Proof.
  intros Hag Hle. cbn [run_until]. unfold turn. rewrite Hag.
  apply Z.leb_le in Hle. now rewrite Hle.
Qed.

Lemma run_until_idle (T : Z) (fuel : nat) (w : world) :
  agenda w = [] -> run_until net JSON_parse T fuel w = w.
Proof.
  intros Hag. destruct fuel; [reflexivity|]. cbn [run_until]. now rewrite Hag.
Qed.

(** A message that is no JSON and whose sanitized text has between 1 and
    999 characters. *)
Lemma onmessage_spoken (data rnd : jsstring) (w : world) :
  JSON_parse (sanitizeInput data) = None ->
  (0 < len (sanitizeInput data) < 1000)%Z ->
  onmessage JSON_parse data rnd w
  = mkWorld (now w)
      (setIsTranscribing true
         (setTranscription
            (fun prev => push_transcript prev
                           (mkSegment (now w, rnd) (sanitizeInput data) (now w)))
            (comp w)))
      (schedule (now w + 1000) (Timer (next_timer w) SpeakingOff) (agenda w))
      (attempts w) (next_socket w) (S (next_timer w)) (sent w) (feedbackInterval w)
      (closures w).
Proof.
  intros Hp [H0 H1]. unfold onmessage, inner_try. rewrite Hp.
  apply Z.ltb_lt in H0, H1. rewrite H0, H1. reflexivity.
Qed.

End ChannelMore.

(** X12: whatever event is delivered (a timer, an open, an error, a close,
    a message of any content), if every segment of the transcript has a text
    of between 1 and 999 characters before, then so it is afterwards: no
    empty and no over-long text ever gets into the transcript. *)
Theorem transcript_texts_bounded
    (net : network) (JSON_parse : jsstring -> option value)
    (e : event) (w : world) :
  Forall (fun seg => (0 < len (text seg) < 1000)%Z) (transcription (comp w)) ->
  Forall (fun seg => (0 < len (text seg) < 1000)%Z)
         (transcription (comp (deliver net JSON_parse e w))).
Proof.
  intros H.
  destruct (deliver_transcription net JSON_parse e w) as [E|(seg & Hseg & E)];
    rewrite E; [exact H|].
  unfold push_transcript, slice_last. apply Forall_app. split.
  - now apply Forall_skipn_keep.
  - constructor; [exact Hseg | constructor].
Qed.

Lemma transcript_texts_bounded_witness :
  let w := onmessage (fun _ => None) (str "two pointers") (str "k3x") mounted in
  Forall (fun seg => (0 < len (text seg) < 1000)%Z)
         (transcription
            (comp (deliver (refused 0) (fun _ => None)
                     (SockMessage 0 (str "   ") (str "q7a")) w)))
  /\ length (transcription
               (comp (deliver (refused 0) (fun _ => None)
                        (SockMessage 0 (str "   ") (str "q7a")) w))) = 1.
Proof.
  intros w. split; [|vm_compute; reflexivity].
  apply (transcript_texts_bounded (refused 0) (fun _ => None)).
  vm_compute. repeat constructor.
Defined.

(** X13: the speaking indicator is switched off 1000 ms after a spoken
    message even when another one has come in the meantime, because the
    timers are never cleared. Two spoken messages at [t1] and [t2], less
    than a second apart: at [t1 + 1000] both segments are in the transcript,
    the indicator is off, and the timer of the second message is still to
    come. *)
Theorem speaking_indicator_not_extended
    (net : network) (JSON_parse : jsstring -> option value)
    (w : world) (id : nat) (d1 r1 d2 r2 : jsstring) (t1 t2 : Z) :
  agenda w = [(t1, SockMessage id d1 r1); (t2, SockMessage id d2 r2)] ->
  (t1 <= t2 < t1 + 1000)%Z ->
  JSON_parse (sanitizeInput d1) = None -> JSON_parse (sanitizeInput d2) = None ->
  (0 < len (sanitizeInput d1) < 1000)%Z -> (0 < len (sanitizeInput d2) < 1000)%Z ->
  let w' := run_until net JSON_parse (t1 + 1000) 3 w in
  now w' = (t1 + 1000)%Z
  /\ isTranscribing (comp w') = false
  /\ transcription (comp w')
     = push_transcript
         (push_transcript (transcription (comp w))
            (mkSegment (t1, r1) (sanitizeInput d1) t1))
         (mkSegment (t2, r2) (sanitizeInput d2) t2)
  /\ agenda w' = [((t2 + 1000)%Z, Timer (S (next_timer w)) SpeakingOff)].
Proof.
  intros Hag Ht Hp1 Hp2 Hl1 Hl2 w'. subst w'.
  rewrite (run_until_step net JSON_parse _ 2 w t1 _ _ Hag) by lia.
  cbn [deliver]. rewrite (onmessage_spoken JSON_parse d1 r1 _ Hp1 Hl1).
  cbn [now comp agenda attempts next_socket next_timer sent feedbackInterval schedule].
  assert (E1 : (t1 + 1000 <? t2)%Z = false) by (apply Z.ltb_ge; lia).
  rewrite E1.
  erewrite (run_until_step net JSON_parse _ 1 _ t2) by (cbn [agenda]; first [reflexivity | lia]).
  cbn [deliver comp attempts next_socket next_timer sent feedbackInterval].
  rewrite (onmessage_spoken JSON_parse d2 r2 _ Hp2 Hl2).
  cbn [now comp agenda attempts next_socket next_timer sent feedbackInterval schedule].
  assert (E2 : (t2 + 1000 <? t1 + 1000)%Z = false) by (apply Z.ltb_ge; lia).
  rewrite E2.
  erewrite (run_until_step net JSON_parse _ 0 _ (t1 + 1000)) by (cbn [agenda]; first [reflexivity | lia]).
  cbn. repeat split.
Qed.

Lemma speaking_indicator_not_extended_witness :
  let w := mkWorld 0 initial
             [(100%Z, SockMessage 0 (str "first I sort") (str "a1"));
              (1000%Z, SockMessage 0 (str "then I scan") (str "b2"))]
             [] 1 1 [] false [(0, str "javascript")] in
  let w' := run_until (refused 0) (fun _ => None) 1100 3 w in
  now w' = 1100%Z
  /\ isTranscribing (comp w') = false
  /\ length (transcription (comp w')) = 2
  /\ agenda w' = [(2000%Z, Timer 2 SpeakingOff)].
Proof.
  intros w w'.
  destruct (speaking_indicator_not_extended (refused 0) (fun _ => None) w 0
              (str "first I sort") (str "a1") (str "then I scan") (str "b2")
              100 1000) as (A & B & C & D).
  - reflexivity.
  - lia.
  - reflexivity.
  - reflexivity.
  - vm_compute. split; reflexivity.
  - vm_compute. split; reflexivity.
  - split; [exact A|]. split; [exact B|]. split; [|exact D].
    change (length (transcription
                      (comp (run_until (refused 0) (fun _ => None) (100 + 1000) 3 w)))
            = 2).
    rewrite C. reflexivity.
Defined.

(** X14: the retries stop once the server takes the connection. From the
    state between two attempts, against a server that opens every socket
    [d] ms after it was made: the timer makes one attempt, the socket opens,
    the component shows itself connected, the handshake is sent, and nothing
    is left to come: however long the loop runs on, no further attempt is
    made. The language in the handshake is the sanitized language of the
    [connectWebSocket] that set the timer, which is the language of the
    render it was made in, whatever the language of the component is by
    then. *)
Theorem recovery_stops_retries
    (JSON_parse : jsstring -> option value) (d t T : Z) (fuel : nat)
    (lang : jsstring) (w : world) :
  (0 <= d)%Z -> waiting t lang w -> (t + d <= T)%Z ->
  let w' := run_until (accepting d) JSON_parse T (2 + fuel) w in
  isConnected (comp w') = true
  /\ is_open (wsRef (comp w')) = true
  /\ attempts w' = t :: attempts w
  /\ sent w' = session_start (t + d) (sanitizeInput lang) :: sent w
  /\ agenda w' = [].
Proof.
  intros Hd [[tid Hag] Hopen] HT w'.
  assert (E : w' = onopen (next_socket w)
                     (mkWorld (t + d)
                        (set_wsRef (Some (mkSocket (next_socket w) CONNECTING)) (comp w))
                        [] (t :: attempts w) (S (next_socket w)) (next_timer w)
                        (sent w) (feedbackInterval w)
                        ((next_socket w, lang) :: closures w))).
  { subst w'. change (2 + fuel) with (S (S fuel)).
    rewrite (run_until_step _ JSON_parse T (S fuel) w t _ _ Hag) by lia.
    cbn [deliver]. unfold connectWebSocket. cbn [comp]. rewrite Hopen.
    cbn [accepting url_ok fate now next_socket with_comp comp agenda attempts
         next_timer sent feedbackInterval closures fold_left schedule fst snd].
    erewrite (run_until_step _ JSON_parse T fuel _ (t + d))
      by (cbn [agenda]; first [reflexivity | lia]).
    cbn [deliver comp attempts next_socket next_timer sent feedbackInterval
         closures].
    apply run_until_idle.
    unfold onopen, mark, with_comp, clearTimeout, with_agenda.
    cbn. rewrite Nat.eqb_refl. cbn.
    destruct (connectionRetryRef (comp w)); reflexivity. }
  rewrite E. unfold onopen, mark, with_comp, clearTimeout, with_agenda, captured.
  cbn. rewrite Nat.eqb_refl. cbn.
  destruct (connectionRetryRef (comp w)); cbn; rewrite ?Nat.eqb_refl;
    repeat split.
Qed.

Lemma recovery_stops_retries_witness :
  let w0 := run_until (accepting 10) (fun _ => None) 100 5
              (mount_connect (accepting 10) mounted) in
  let w := with_comp (setLanguage (str "python")) (onclose 0 w0) in
  let w' := run_until (accepting 10) (fun _ => None) 60000 (2 + 98) w in
  waiting 5010 (str "javascript") w
  /\ language (comp w) = str "python"
  /\ isConnected (comp w') = true
  /\ attempts w' = [5010; 0]%Z
  /\ sent w' = [session_start 5020 (str "javascript"); session_start 10 (str "javascript")]
  /\ agenda w' = [].
Proof.
  intros w0 w w'.
  assert (Hw : waiting 5010 (str "javascript") w).
  { split; [exists 1; vm_compute; reflexivity | vm_compute; reflexivity]. }
  split; [exact Hw|]. split; [vm_compute; reflexivity|].
  destruct (recovery_stops_retries (fun _ => None) 10 5010 60000 98
              (str "javascript") w ltac:(lia) Hw ltac:(lia)) as (A & _ & C & D & E).
  split; [exact A|]. split; [|split; [|exact E]].
  - fold w' in C. rewrite C. vm_compute. reflexivity.
  - fold w' in D. rewrite D. vm_compute. reflexivity.
Defined.

(** ** The controls *)

Section ControlFacts.

Lemma allowed_is_fixed (l : jsstring) :
  includes l allowedLanguages = true -> sanitizeInput l = l.
Proof.
  unfold includes, allowedLanguages. cbn [existsb]. intros H.
  repeat (apply orb_prop in H as [H|H];
          [unfold jsstring_eqb in H;
           destruct (list_eq_dec N.eq_dec l _) as [->|]; [|discriminate];
           vm_compute; reflexivity|]).
  discriminate.
Qed.

Lemma click_pause_eq (w : world) :
  click_pause w
  = mkWorld (now w) (setIsPaused (negb (isPaused (comp w))) (comp w)) (agenda w)
      (attempts w) (next_socket w) (next_timer w)
      ((if is_open (wsRef (comp w))
        then [if isPaused (comp w) then resume_session (now w)
              else pause_session (now w)]
        else []) ++ sent w)
      (auto_feedback_due (setIsPaused (negb (isPaused (comp w))) (comp w)))
      (closures w).
Proof.
  destruct w as [nw s ag att ns nt snt fi cl].
  unfold click_pause, autoFeedbackEffect, togglePause, with_comp,
    with_feedbackInterval.
  cbn [comp now agenda sent attempts next_socket next_timer feedbackInterval].
  destruct (is_open (wsRef s)); reflexivity.
Qed.

Lemma state_eta (s : state) :
  mkState (code s) (language s) (isConnected s) (isPaused s) (isTranscribing s)
    (snapshots s) (transcription s) (feedback s) (isEvaluating s)
    (apiServerConnected s) (questionType s) (selectedProblem s)
    (customQuestion s) (searchTerm s) (sessionStarted s) (wsRef s)
    (connectionRetryRef s) (lastApiCall s) = s.
Proof. now destruct s. Qed.

End ControlFacts.

(** X15: pausing stops the automatic evaluation and touches nothing else:
    after a click on the pause button of a running session the 60-second
    interval is off, while the socket, the connected flag, the three
    buffers, the code and the events to come are what they were; the
    channel is told [pause_session] if and only if the socket is open. *)
Theorem pause_stops_scheduler (w : world) :
  isPaused (comp w) = false ->
  let w' := click_pause w in
  isPaused (comp w') = true
  /\ feedbackInterval w' = false
  /\ wsRef (comp w') = wsRef (comp w)
  /\ isConnected (comp w') = isConnected (comp w)
  /\ transcription (comp w') = transcription (comp w)
  /\ snapshots (comp w') = snapshots (comp w)
  /\ feedback (comp w') = feedback (comp w)
  /\ code (comp w') = code (comp w)
  /\ agenda w' = agenda w
  /\ sent w' = (if is_open (wsRef (comp w)) then [pause_session (now w)] else [])
               ++ sent w.
Proof.
  intros Hp. cbv zeta. rewrite (click_pause_eq w), Hp.
  cbn [comp now agenda sent attempts next_socket next_timer feedbackInterval negb].
  unfold auto_feedback_due. cbn [isPaused setIsPaused negb andb].
  destruct (is_open (wsRef (comp w))); repeat split.
Qed.

Lemma pause_stops_scheduler_witness :
  let w := run_until (accepting 10) (fun _ => None) 100 5
             (mount_connect (accepting 10) mounted) in
  let w := with_comp (setSessionStarted true) w in
  let w := onmessage (fun _ => None) (str "two pointers") (str "k3x") w in
  let w := autoFeedbackEffect w in
  feedbackInterval w = true
  /\ feedbackInterval (click_pause w) = false
  /\ sent (click_pause w) = pause_session 10 :: sent w.
Proof.
  intros w0 w1 w2 w.
  assert (Hp : isPaused (comp w) = false) by (vm_compute; reflexivity).
  destruct (pause_stops_scheduler w Hp) as (_ & A & _ & _ & _ & _ & _ & _ & _ & B).
  split; [vm_compute; reflexivity|]. split; [exact A|].
  rewrite B. vm_compute. reflexivity.
Defined.

(** X16: pausing and resuming is a round trip: two clicks on the pause
    button leave the state of the component exactly as it was and the
    scheduler as the auto-feedback effect sets it for that state; on an
    open socket the channel is sent the two messages of the round trip,
    in order, and on any other nothing. *)
Theorem pause_resume_round_trip (w : world) :
  let w' := click_pause (click_pause w) in
  comp w' = comp w
  /\ feedbackInterval w' = auto_feedback_due (comp w)
  /\ agenda w' = agenda w
  /\ sent w'
     = (if is_open (wsRef (comp w))
        then if isPaused (comp w)
             then [pause_session (now w); resume_session (now w)]
             else [resume_session (now w); pause_session (now w)]
        else [])
       ++ sent w.
Proof.
  cbv zeta. rewrite (click_pause_eq (click_pause w)), (click_pause_eq w).
  cbn [comp now agenda sent attempts next_socket next_timer feedbackInterval].
  destruct w as [nw s ag att ns nt snt fi cl].
  destruct s as [c l ic ip it sn tr fb ie ac qt sp cq st ss ws cr la].
  cbn [comp now agenda sent wsRef isPaused setIsPaused].
  rewrite negb_involutive.
  destruct (is_open ws); destruct ip; repeat split.
Qed.

(** X17: the editor handler keeps the code within the content gate: a
    change is taken over only when its sanitized text has at most 10,000
    characters and is ignored otherwise, so a code of at most 10,000
    characters stays one, and [requestFeedback] never turns it away for its
    size; a code that was taken over has no blanks at its ends. Nothing but
    the code is changed. *)
Theorem code_change_keeps_bound (value : option jsstring) (s : state) :
  (len (code s) <= 10000)%Z ->
  let v := match value with Some v => v | None => [] end in
  let s' := handleCodeChange value s in
  (len (code s') <= 10000)%Z
  /\ (10000 <? len (code s'))%Z = false
  /\ ((len (sanitizeInput v) <= 10000)%Z ->
      code s' = sanitizeInput v /\ trim (code s') = code s')
  /\ ((10000 < len (sanitizeInput v))%Z -> s' = s)
  /\ transcription s' = transcription s
  /\ feedback s' = feedback s /\ snapshots s' = snapshots s
  /\ language s' = language s
  /\ lastApiCall s' = lastApiCall s.
Proof.
  intros Hb v s'. subst s'. unfold handleCodeChange. fold v.
  assert (Hv : trim (sanitizeInput v) = sanitizeInput v)
    by (unfold sanitizeInput; apply trim_idempotent).
  destruct (Z.leb_spec (len (sanitizeInput v)) 10000) as [H|H].
  - cbn [code setCode transcription feedback snapshots language lastApiCall].
    split; [exact H|]. split; [apply Z.ltb_ge; exact H|].
    split; [intros _; split; [reflexivity | exact Hv]|].
    split; [intros G; lia|]. repeat split.
  - split; [exact Hb|]. split; [apply Z.ltb_ge; exact Hb|].
    split; [intros G; lia|]. repeat split.
Qed.

Lemma code_change_keeps_bound_witness :
  let s := setCode (str "let x = 1") initial in
  code (handleCodeChange (Some (repeat 97%N (Z.to_nat 10001))) s) = str "let x = 1"
  /\ code (handleCodeChange (Some (str " let y = 2 ")) s) = str "let y = 2"
  /\ (len (code (handleCodeChange (Some (str " let y = 2 ")) s)) <= 10000)%Z.
Proof.
  intros s.
  split; [vm_compute; reflexivity|]. split; [vm_compute; reflexivity|].
  apply (code_change_keeps_bound (Some (str " let y = 2 ")) s).
  vm_compute. discriminate.
Defined.

(** X18: the language of the component stays one of the eight allowed
    names: [handleLanguageChange] takes a name over only if its sanitized
    form is one of them and otherwise changes nothing; and since the
    sanitizer leaves these names as they are, the language that goes into
    every request and into the handshake is the language itself. *)
Theorem language_stays_allowed (newLanguage : jsstring) (s : state) :
  includes (language s) allowedLanguages = true ->
  let s' := handleLanguageChange newLanguage s in
  includes (language s') allowedLanguages = true
  /\ sanitizeInput (language s') = language s'
  /\ (includes (sanitizeInput newLanguage) allowedLanguages = false -> s' = s)
  /\ (includes (sanitizeInput newLanguage) allowedLanguages = true ->
      language s' = sanitizeInput newLanguage)
  /\ code s' = code s.
Proof.
  intros H. cbv zeta. unfold handleLanguageChange.
  destruct (includes (sanitizeInput newLanguage) allowedLanguages) eqn:E.
  - cbn [language setLanguage code].
    split; [exact E|]. split; [exact (allowed_is_fixed _ E)|].
    split; [discriminate|]. split; reflexivity.
  - split; [exact H|]. split; [exact (allowed_is_fixed _ H)|].
    split; [reflexivity|]. split; [discriminate | reflexivity].
Qed.

Lemma language_stays_allowed_witness :
  language (handleLanguageChange (str " python ") initial) = str "python"
  /\ language (handleLanguageChange (str "cobol") initial) = str "javascript"
  /\ includes (language (handleLanguageChange (str "cobol") initial))
       allowedLanguages = true.
Proof.
  split; [vm_compute; reflexivity|]. split; [vm_compute; reflexivity|].
  apply (language_stays_allowed (str "cobol") initial).
  vm_compute. reflexivity.
Defined.

Section StartFacts.

Lemma question_shown (s : state) :
  question_chosen s = true <-> getCurrentQuestion s <> str "No question selected".
Proof.
  unfold question_chosen, getCurrentQuestion.
  destruct (questionType s), (selectedProblem s) as [p|];
    try destruct (trim (customQuestion s));
    split; intros H; try reflexivity; try discriminate; try (now exfalso; apply H).
Qed.

Lemma allowed_not_inherited (l : jsstring) :
  includes l allowedLanguages = true -> includes l inherited = false.
Proof.
  unfold includes at 1. unfold allowedLanguages. cbn [existsb]. intros H.
  repeat (apply orb_prop in H as [H|H];
          [unfold jsstring_eqb in H;
           destruct (list_eq_dec N.eq_dec l _) as [->|]; [|discriminate];
           vm_compute; reflexivity|]).
  discriminate.
Qed.

Lemma template_shape (lang q : jsstring) :
  includes lang inherited = false ->
  exists mark rest,
    template_for lang q = Text (mark ++ q ++ rest)
    /\ (mark = str "// " \/ mark = str "# ").
Proof.
  intros Hin. unfold template_for, default_template, templates. cbn [assoc].
  rewrite Hin.
  assert (Hjs : jsstring_eqb (str "javascript") (str "javascript") = true)
    by (vm_compute; reflexivity).
  rewrite Hjs.
  repeat match goal with
         | |- context [jsstring_eqb ?a lang] => destruct (jsstring_eqb a lang)
         end;
    cbn [str app N_of_ascii];
    try (eexists (str "// "), _; split; [reflexivity | now left]);
    try (eexists (str "# "), _; split; [reflexivity | now right]).
Qed.

(** A name of [Object.prototype] as language gives no text. *)
Lemma template_inherited (q : jsstring) :
  template_for (str "constructor") q = Member (str "constructor")
  /\ template_for (str "toString") q = Member (str "toString")
  /\ template_for (str "__proto__") q = Member (str "__proto__").
Proof.
  unfold template_for, templates. cbn [assoc].
  repeat match goal with
         | |- context [jsstring_eqb ?a ?b] =>
             let v := eval vm_compute in (jsstring_eqb a b) in
             change (jsstring_eqb a b) with v
         end.
  repeat split.
Qed.

Lemma trim_keeps_text (c : cu) (l : jsstring) :
  is_space c = false -> trim (c :: l) <> [].
Proof.
  intros Hc. unfold trim. cbn [drop_while]. rewrite Hc. cbn [rev].
  rewrite (drop_while_snoc _ _ _ Hc). rewrite rev_app_distr. discriminate.
Qed.

End StartFacts.

(** X19: a session starts only with a question. With the language of the
    component one of the eight allowed ones: where no question is chosen
    (no problem selected, or a custom question that is blank),
    [handleStartSession] changes nothing; where one is chosen, which is
    exactly where [getCurrentQuestion] does not read [No question selected],
    the session is started and the code is set to a template that begins
    with a comment mark followed by that question context, so that it is
    not blank. The buffers and the language are left alone. *)
Theorem start_needs_question (s : state) :
  includes (language s) allowedLanguages = true ->
  (question_chosen s = true <-> getCurrentQuestion s <> str "No question selected")
  /\ (question_chosen s = false -> handleStartSession s = Some s)
  /\ (question_chosen s = true ->
      exists s',
        handleStartSession s = Some s'
        /\ sessionStarted s' = true
        /\ (exists mark rest,
              code s' = mark ++ getCurrentQuestion s ++ rest
              /\ (mark = str "// " \/ mark = str "# "))
        /\ trim (code s') <> []
        /\ language s' = language s
        /\ transcription s' = transcription s
        /\ feedback s' = feedback s /\ snapshots s' = snapshots s).
Proof.
  intros Hallowed. split; [apply question_shown|].
  unfold handleStartSession. split; intros H; rewrite H; [reflexivity|].
  destruct (template_shape (language s) (getCurrentQuestion s)
              (allowed_not_inherited _ Hallowed))
    as (mark & rest & E & Hm).
  cbv zeta. rewrite E. eexists. split; [reflexivity|].
  cbn [sessionStarted code language transcription feedback snapshots
       setCode setSessionStarted].
  split; [reflexivity|]. split; [exists mark, rest; split; [reflexivity | exact Hm]|].
  split; [|repeat split].
  destruct Hm as [-> | ->]; apply trim_keeps_text; reflexivity.
Qed.

Lemma start_needs_question_witness :
  let s := setLanguage (str "python")
             (setSelectedProblem
                (Some (mkProblem (str "Two Sum") (str "Easy") (str "Array")))
                initial) in
  includes (language s) allowedLanguages = true
  /\ question_chosen s = true
  /\ exists s',
       handleStartSession s = Some s'
       /\ sessionStarted s' = true
       /\ trim (code s') <> [].
Proof.
  intros s.
  assert (Ha : includes (language s) allowedLanguages = true)
    by (vm_compute; reflexivity).
  assert (Hq : question_chosen s = true) by (vm_compute; reflexivity).
  split; [exact Ha|]. split; [exact Hq|].
  destruct (start_needs_question s Ha) as (_ & _ & H).
  destruct (H Hq) as (s' & E & St & _ & Tr & _).
  exists s'. split; [exact E|]. split; [exact St | exact Tr].
Defined.

(** ** The snapshot panel *)

Section PreviewFacts.

Lemma find_all_false {A : Type} (p : A -> bool) (l : list A) :
  (forall x, In x l -> p x = false) -> find p l = None.
Proof.
  induction l as [|a l IH]; intros H; [reflexivity|].
  cbn [find]. rewrite (H a (or_introl eq_refl)).
  apply IH. intros x Hx. apply H. now right.
Qed.

Lemma ends_with_dots (head : jsstring) :
  head ++ str "..." <> str "Empty code" /\ nonempty (head ++ str "...") = true.
Proof.
  split.
  - intros H. apply (f_equal (@rev cu)) in H.
    rewrite rev_app_distr in H. discriminate H.
  - destruct head; reflexivity.
Qed.

End PreviewFacts.

(** X20: the preview of a snapshot always ends in three dots after at most
    30 characters, and the text [Empty code] is never shown: the sum with
    the dots is taken before the fallback, and is never empty. *)
Theorem preview_never_empty_code (code : jsstring) :
  exists head,
    getCodePreview code = head ++ str "..."
    /\ length head <= 30
    /\ getCodePreview code <> str "Empty code".
Proof.
  unfold getCodePreview.
  destruct (firstMeaningfulLine code) as [line|].
  - exists (substring0 30 (trim line)).
    destruct (ends_with_dots (substring0 30 (trim line))) as [H1 H2].
    rewrite H2. split; [reflexivity|]. split; [|exact H1].
    unfold substring0. rewrite length_firstn. lia.
  - exists (str "undefined"). split; [reflexivity|]. split; [cbn; lia|].
    discriminate.
Qed.

(** X21: for a code in which every line is blank or a comment (it starts,
    once trimmed, with [//] or [/*]), and so for the empty code, the
    preview reads [undefined...]. *)
Theorem preview_without_code (code : jsstring) :
  (forall line, In line (split_on 10%N code) ->
     trim line = []
     \/ startsWith (str "//") (trim line) = true
     \/ startsWith (str "/*") (trim line) = true) ->
  getCodePreview code = str "undefined...".
Proof.
  intros H. unfold getCodePreview, firstMeaningfulLine.
  rewrite find_all_false; [reflexivity|].
  intros line Hin. apply filter_In in Hin as [Hin _].
  destruct (H line Hin) as [E|[E|E]]; rewrite E; cbn;
    rewrite ?andb_false_r; reflexivity.
Qed.

Lemma preview_without_code_witness :
  getCodePreview (str "  // two sum") = str "undefined..."
  /\ getCodePreview [] = str "undefined...".
Proof.
  split.
  - apply preview_without_code.
    intros line Hin. cbn in Hin. destruct Hin as [<-|[]].
    right. left. vm_compute. reflexivity.
  - vm_compute. reflexivity.
Defined.

(** ** Inline handlers *)

Section HandlerFacts.

(** A greedy star over a one-unit pattern runs over a stretch of units it
    matches and stops in front of the first one it does not match, where
    the rest of the pattern is tried first. *)
Lemma star_one_runs (r : regex) (p : cu -> bool) :
  (forall k x, bt r k x = one p k x) ->
  forall (l : jsstring) (prev : option cu) (c : cu) (rest : jsstring)
         (k : pos -> option pos) (fuel : nat) (e : pos),
    Forall (fun d => p d = true) l -> p c = false -> length l <= fuel ->
    k (fold_left (fun _ d => Some d) l prev, c :: rest) = Some e ->
    star_iter r k fuel (prev, l ++ c :: rest) = Some e.
Proof.
  intros Hr. induction l as [|d l IH]; intros prev c rest k fuel e Hl Hc Hf Hk.
  - cbn [app fold_left] in *. destruct fuel as [|fuel]; [exact Hk|].
    rewrite star_iter_S, Hr. unfold one. cbn [snd]. rewrite Hc. exact Hk.
  - destruct fuel as [|fuel]; [cbn [length] in Hf; lia|].
    rewrite star_iter_S, Hr. unfold one. cbn [snd app].
    inversion Hl as [|? ? Hd Hl']; subst. rewrite Hd.
    assert (Hlt : Nat.ltb (length (l ++ c :: rest))
                          (length (d :: l ++ c :: rest)) = true)
      by (apply Nat.ltb_lt; cbn [length]; lia).
    cbn [snd]. rewrite Hlt.
    rewrite (IH (Some d) c rest k fuel e); [reflexivity | exact Hl' | exact Hc | | exact Hk].
    cbn [length] in Hf. lia.
Qed.

Ltac bool_bounds :=
  repeat match goal with
         | H : (_ || _)%bool = true |- _ => apply orb_prop in H; destruct H as [H|H]
         | H : (_ && _)%bool = true |- _ => apply andb_prop in H; destruct H
         | H : N.leb _ _ = true |- _ => apply N.leb_le in H
         | H : N.eqb _ _ = true |- _ => apply N.eqb_eq in H
         end.

Lemma word_range (c : cu) : is_word c = true -> (48 <= c <= 122)%N.
Proof. unfold is_word, in_range. intros H. bool_bounds; lia. Qed.

Lemma space_range (c : cu) : is_space c = true -> (c <= 32 \/ 160 <= c)%N.
Proof. unfold is_space, in_range. intros H. bool_bounds; lia. Qed.

Lemma space_not_word (c : cu) : is_space c = true -> is_word c = false.
Proof.
  intros Hs. destruct (is_word c) eqn:Hw; [|reflexivity].
  apply word_range in Hw. apply space_range in Hs. lia.
Qed.

Lemma not_in_by (p : cu -> bool) (x : cu) (l : jsstring) :
  p x = false -> Forall (fun d => p d = true) l -> ~ In x l.
Proof.
  intros Hx Hl Hin. rewrite Forall_forall in Hl.
  specialize (Hl x Hin). congruence.
Qed.

(** The third pattern on a handler assignment: [on], a word, blanks, [=]. *)
Lemma handler_matched (c1 c2 w1 : cu) (w sp rest : jsstring) (prev : option cu) :
  canon c1 = 79%N -> canon c2 = 78%N -> is_word w1 = true ->
  Forall (fun d => is_word d = true) w ->
  Forall (fun d => is_space d = true) sp ->
  bt event_handler (fun z => Some z) (prev, c1 :: c2 :: w1 :: w ++ sp ++ 61%N :: rest)
  = Some (Some 61%N, rest).
Proof.
  intros H1 H2 H3 Hw Hs.
  change (bt event_handler (fun z => Some z)
            (prev, c1 :: c2 :: w1 :: w ++ sp ++ 61%N :: rest))
    with (if N.eqb (canon c1) 79
          then if N.eqb (canon c2) 78
               then if is_word w1
                    then star_iter Word
                           (bt (Cat (Star Space) (Chr 61%N)) (fun z => Some z))
                           (length (w ++ sp ++ 61%N :: rest))
                           (Some w1, w ++ sp ++ 61%N :: rest)
                    else None
               else None
          else None).
  rewrite H1, H2, H3. cbn [N.eqb Pos.eqb].
  assert (Hsp : forall q,
             bt (Cat (Star Space) (Chr 61%N)) (fun z => Some z) (q, sp ++ 61%N :: rest)
             = Some (Some 61%N, rest)).
  { intros q. cbn [bt]. change (star_iter Space (one (fun d => N.eqb (canon d) (canon 61%N))
                                               (fun z => Some z))
                                  (length (snd (q, sp ++ 61%N :: rest)))
                                  (q, sp ++ 61%N :: rest) = Some (Some 61%N, rest)).
    apply (star_one_runs Space is_space (fun k x => eq_refl)).
    - exact Hs.
    - reflexivity.
    - cbn [snd]. rewrite length_app. lia.
    - reflexivity. }
  destruct sp as [|s1 sp'].
  - cbn [app] in *.
    apply (star_one_runs Word is_word (fun k x => eq_refl)).
    + exact Hw.
    + reflexivity.
    + rewrite length_app. lia.
    + apply (Hsp _).
  - cbn [app] in *.
    apply (star_one_runs Word is_word (fun k x => eq_refl)).
    + exact Hw.
    + inversion Hs as [|? ? Hs1 _]; subst. exact (space_not_word s1 Hs1).
    + rewrite length_app. cbn [length]. lia.
    + apply (Hsp _).
Qed.

End HandlerFacts.

(** X22: a text that is nothing but a handler assignment, [on] in any
    case, a word of one or more word characters, any blanks and [=], is
    removed whole. *)
Theorem handler_assignment_removed (c1 c2 w1 : cu) (w sp : jsstring) :
  canon c1 = 79%N -> canon c2 = 78%N -> is_word w1 = true ->
  Forall (fun d => is_word d = true) w ->
  Forall (fun d => is_space d = true) sp ->
  sanitizeInput (c1 :: c2 :: w1 :: w ++ sp ++ [61%N]) = [].
Proof.
  intros H1 H2 H3 Hw Hs.
  set (x := c1 :: c2 :: w1 :: w ++ sp ++ [61%N]).
  assert (Hno : forall a, is_word a = false -> is_space a = false ->
                          canon a <> 79%N -> canon a <> 78%N -> a <> 61%N ->
                          ~ In a x).
  { intros a A1 A2 A3 A4 A5 Hin. subst x.
    destruct Hin as [<-|[<-|[<-|Hin]]]; try congruence.
    apply in_app_or in Hin as [Hin|Hin]; [exact (not_in_by is_word a w A1 Hw Hin)|].
    apply in_app_or in Hin as [Hin|[<-|[]]]; [|congruence].
    exact (not_in_by is_space a sp A2 Hs Hin). }
  assert (H60 : ~ In 60%N x) by (apply Hno; (reflexivity || discriminate)).
  assert (H58 : ~ In 58%N x) by (apply Hno; (reflexivity || discriminate)).
  unfold sanitizeInput.
  rewrite (remove_all_absent script_block x
             (occurs_from_absent 60%N script_block x eq_refl eq_refl H60 None)).
  rewrite (remove_all_absent javascript_scheme x
             (occurs_from_absent 58%N javascript_scheme x eq_refl eq_refl H58 None)).
  assert (Hr : remove_all event_handler x = []).
  { unfold remove_all. subst x. cbn [remove_from]. unfold match_at.
    pose proof (handler_matched c1 c2 w1 w sp [] None H1 H2 H3 Hw Hs) as E.
    destruct (bt event_handler _ _) as [e|]; [|discriminate E].
    injection E as ->. cbn [snd length]. rewrite Nat.sub_0_r.
    apply remove_from_skip_all. }
  rewrite Hr. reflexivity.
Qed.

Lemma handler_assignment_removed_witness :
  sanitizeInput (str "ONclick  =") = [].
Proof.
  apply (handler_assignment_removed 79%N 78%N 99%N (str "lick") (str "  "));
    try reflexivity; vm_compute; repeat constructor.
Defined.
